(** * Book price tracker: the dashboard front end and the sync/alert pipeline

    The development has four layers.

    - [Js]: the parts of the JavaScript run time the front end relies on:
      nullable values, truthiness, [String.prototype.trim] and
      [Number.prototype.toFixed] over IEEE binary64 numbers.
    - [Frontend]: the TypeScript sources under [frontend/src]: the wire types
      of [types/index.ts], the formatters, the axios client of
      [services/api.ts], the React Query hooks and the cells the pages render.
    - [Pages]: the state, queries and derived views of the pages and
      components: pagination, sorting, query keys, the sidebar, the price
      tiers, the summary cards and the attention panel.
    - [Pipeline]: the Python pipeline and API service, which the repository
      keeps outside the front end; they are modelled from the design
      specification. *)

From Stdlib Require Import ZArith QArith String Ascii List Bool Lia.
From Stdlib Require Import PrimFloat SpecFloat FloatOps.
From stdpp Require Import gmap strings list.

Set Warnings "-inexact-float,-register-all".
Local Open Scope Z_scope.

(** ** JavaScript run-time values *)

Module Js.

(** A value of type [T | null | undefined]. Interfaces declare most fields as
    [T | null]; a field the server leaves out reads as [undefined], and the
    code tests for both. *)
Inductive maybe (A : Type) : Type :=
  | null : maybe A
  | undefined : maybe A
  | value (a : A) : maybe A.
Arguments null {A}.
Arguments undefined {A}.
Arguments value {A} a.

(** [number] is IEEE 754 binary64. *)
Abbreviation number := float.

(** *** Decimal digits of a non-negative integer *)

Definition digit_char (d : Z) : ascii := ascii_of_nat (48 + Z.to_nat d).

Fixpoint decimal_fuel (fuel : nat) (n : Z) (acc : string) : string :=
  match fuel with
  | O => acc
  | S fuel' =>
      let acc' := String (digit_char (n mod 10)) acc in
      if n <? 10 then acc' else decimal_fuel fuel' (n / 10) acc'
  end.

(** The decimal representation of [n >= 0], most significant digit first and
    without leading zeros; ["0"] for [0]. *)
Definition decimal (n : Z) : string :=
  decimal_fuel (S (Z.to_nat (Z.log2 n))) n "".

Fixpoint zeros (k : nat) : string :=
  match k with
  | O => ""
  | S k' => String "0" (zeros k')
  end.

(** *** The mathematical value of a finite binary64

    [Prim2SF] exposes a finite non-zero number as sign, mantissa [m] and
    exponent [e], of magnitude [m * 2^e]. [magnitude] is that value as a
    fraction [(num, den)] with [den] a power of two. *)
Definition magnitude (m : positive) (e : Z) : Z * Z :=
  if 0 <=? e then (Z.pos m * 2 ^ e, 1) else (Z.pos m, 2 ^ (- e)).

Definition at_least_1e21 (m : positive) (e : Z) : bool :=
  let '(num, den) := magnitude m e in 10 ^ 21 * den <=? num.

(** *** Number::toString for the values [toFixed] hands over to it *)

(** Does the integer [y] round to the binary64 [m * 2^e] (round to nearest,
    ties to even)? Used for magnitudes of at least [10^21], where [e >= 17]
    and both half-gaps to the neighbours are integers. *)
Definition rounds_to (m : positive) (e : Z) (y : Z) : bool :=
  let x := Z.pos m * 2 ^ e in
  let up := 2 ^ (e - 1) in
  let down := if Z.pos m =? 2 ^ 52 then 2 ^ (e - 2) else 2 ^ (e - 1) in
  if Z.even (Z.pos m)
  then (x - down <=? y) && (y <=? x + up)
  else (x - down <? y) && (y <? x + up).

(** The [k]-digit candidates [s] with [s * 10^(n-k)] next to [x], for the two
    possible decimal exponents [n]. *)
Definition candidates (x k d : Z) : list (Z * Z) :=
  flat_map (fun n => let s := x / 10 ^ (n - k) in [(s, n); (s + 1, n)])
           [d; d + 1].

Definition admissible (m : positive) (e k : Z) (c : Z * Z) : bool :=
  let '(s, n) := c in
  (10 ^ (k - 1) <=? s) && (s <? 10 ^ k) && rounds_to m e (s * 10 ^ (n - k)).

Definition closer (x k : Z) (c1 c2 : Z * Z) : Z * Z :=
  let dist c := Z.abs (fst c * 10 ^ (snd c - k) - x) in
  if dist c2 <? dist c1 then c2 else c1.

Definition best (x k : Z) (cs : list (Z * Z)) : option (Z * Z) :=
  match cs with
  | [] => None
  | c :: cs' => Some (fold_left (closer x k) cs' c)
  end.

(** The shortest digit string [s] (of [k] digits) and decimal exponent [n]
    with [s * 10^(n-k)] rounding to [x = m * 2^e]; among equally short ones
    the closest to [x]. Seventeen digits always suffice. *)
Fixpoint shortest (fuel : nat) (m : positive) (e k : Z) : Z * Z * Z :=
  let x := Z.pos m * 2 ^ e in
  let d := Z.of_nat (String.length (decimal x)) in
  match fuel with
  | O => (k, x / 10 ^ (d - k), d)
  | S fuel' =>
      match best x k (filter (fun c => admissible m e k c) (candidates x k d)) with
      | Some (s, n) => (k, s, n)
      | None => shortest fuel' m e (k + 1)
      end
  end.

(** Number::toString of a number of magnitude at least [10^21]: exponential
    notation [d.ddd...e+x]. *)
Definition toString_large (m : positive) (e : Z) : string :=
  let '(k, s, n) := shortest 17 m e 1 in
  let digits := decimal s in
  let mantissa :=
    match digits with
    | String c EmptyString => digits
    | String c rest => String c ("." +:+ rest)
    | EmptyString => digits
    end in
  mantissa +:+ "e+" +:+ decimal (n - 1).

(** *** Number.prototype.toFixed *)

(** The integer [n] for which [n / 10^f] is closest to [m * 2^e]; of two
    equally close ones the larger. *)
Definition nearest_scaled (f : nat) (m : positive) (e : Z) : Z :=
  let '(num, den) := magnitude m e in
  (2 * num * 10 ^ Z.of_nat f + den) / (2 * den).

(** The digits of [n] with a decimal point before the last [f] of them,
    padded with zeros on the left to [f + 1] digits. *)
Definition fixed_digits (f : nat) (n : Z) : string :=
  let m := decimal n in
  if (f =? 0)%nat then m
  else
    let k := String.length m in
    let m := if (k <=? f)%nat then zeros (f + 1 - k) +:+ m else m in
    let k := String.length m in
    substring 0 (k - f) m +:+ "." +:+ substring (k - f) f m.

(** [x.toFixed(f)] for [0 <= f <= 100]. *)
Definition toFixed (x : number) (f : nat) : string :=
  match Prim2SF x with
  | S754_nan => "NaN"
  | S754_infinity s => if s then "-Infinity" else "Infinity"
  | S754_zero _ => fixed_digits f 0
  | S754_finite s m e =>
      (if s then "-" else "") +:+
      (if at_least_1e21 m e then toString_large m e
       else fixed_digits f (nearest_scaled f m e))
  end.

(** The numbers [toFixed] writes in fixed notation: the finite ones of
    magnitude below [10^21]. *)
Definition fixed_range (x : number) : bool :=
  match Prim2SF x with
  | S754_zero _ => true
  | S754_finite _ m e => negb (at_least_1e21 m e)
  | _ => false
  end.

(** [x < 0] *)
Definition is_negative (x : number) : bool :=
  match Prim2SF x with
  | S754_finite s _ _ => s
  | _ => false
  end.

(** [|x|] as a fraction, for finite [x]. *)
Definition abs_fraction (x : number) : Z * Z :=
  match Prim2SF x with
  | S754_finite _ m e => magnitude m e
  | _ => (0, 1)
  end.

(** [n] is the integer nearest to [100 * |x|], the larger one on a tie:
    [n - 1/2 <= 100 * |x| < n + 1/2]. *)
Definition nearest_hundredths (x : number) (n : Z) : Prop :=
  let '(num, den) := abs_fraction x in
  2 * n * den - den <= 200 * num < 2 * n * den + den.

(** [n] hundredths written with two decimal places, after the sign. *)
Definition two_decimals (negative : bool) (n : Z) : string :=
  (if negative then "-" else "") +:+
  decimal (n / 100) +:+ "." +:+
  String (digit_char ((n / 10) mod 10)) (String (digit_char (n mod 10)) "").

Definition is_digit (c : ascii) : bool :=
  ((48 <=? N_of_ascii c) && (N_of_ascii c <=? 57))%N.

Fixpoint all_digits (s : string) : bool :=
  match s with
  | EmptyString => true
  | String c rest => is_digit c && all_digits rest
  end.

(** *** Truthiness and [String.prototype.trim] *)

(** [!!v] for a nullable string: [null], [undefined] and [""] are falsy. *)
Definition truthy_string (v : maybe string) : bool :=
  match v with
  | value s => negb (s =? "")%string
  | _ => false
  end.

(** [!!v] for a nullable number: [null], [undefined], [0], [-0] and [NaN] are
    falsy. *)
Definition truthy_number (v : maybe number) : bool :=
  match v with
  | value x => negb (PrimFloat.eqb x 0 || PrimFloat.is_nan x)
  | _ => false
  end.

(** [v || d] on strings. *)
Definition or_else (v : maybe string) (d : string) : string :=
  match v with
  | value s => if (s =? "")%string then d else s
  | _ => d
  end.

(** White space and line terminators among the code units below 256, the
    range a [string] of this development holds: TAB, LF, VT, FF, CR, SP and
    NBSP. *)
Definition is_white_space (c : ascii) : bool :=
  match N_of_ascii c with
  | 9 | 10 | 11 | 12 | 13 | 32 | 160 => true
  | _ => false
  end%N.

Fixpoint trimStart (s : string) : string :=
  match s with
  | String c rest => if is_white_space c then trimStart rest else s
  | EmptyString => s
  end.

Definition trimEnd (s : string) : string :=
  String.rev (trimStart (String.rev s)).

Definition trim (s : string) : string := trimEnd (trimStart s).

(** [`${n}`] for an integral number. *)
Definition show_int (n : Z) : string :=
  if n <? 0 then "-" +:+ decimal (- n) else decimal n.

(** *** Objects as they cross the wire *)

Inductive js : Type :=
  | JNull
  | JUndefined
  | JInt (n : Z)
  | JNum (x : number)
  | JStr (s : string)
  | JArr (items : list js)
  | JObj (fields : list (string * js)).

(** [o[k]]: reading a property an object does not have gives [undefined]. *)
Fixpoint lookup_field (k : string) (fields : list (string * js)) : js :=
  match fields with
  | [] => JUndefined
  | (k', v) :: rest => if (k =? k')%string then v else lookup_field k rest
  end.

Definition get (k : string) (o : js) : js :=
  match o with
  | JObj fields => lookup_field k fields
  | _ => JUndefined
  end.

(** [k in o] *)
Definition has_key (k : string) (o : js) : bool :=
  match o with
  | JObj fields => existsb (fun kv => (k =? fst kv)%string) fields
  | _ => false
  end.

Definition keys (o : js) : list string :=
  match o with
  | JObj fields => map fst fields
  | _ => []
  end.

Definition is_null (v : js) : bool :=
  match v with
  | JNull => true
  | _ => false
  end.

Definition js_of_maybe {A} (f : A -> js) (v : maybe A) : js :=
  match v with
  | null => JNull
  | undefined => JUndefined
  | value a => f a
  end.

End Js.

(** ** The front end (TypeScript sources under [frontend/src]) *)

Module Frontend.
Import Js.

(** *** [types/index.ts]

    Every interface is a record in a module of its name. Identifiers, counts
    and page numbers are integral [number]s and are kept as [Z]; prices are
    binary64 [number]s. [to_js] is the object a value of the interface is on
    the wire. *)

Module Book.
Record t := {
  id : Z;
  isbn : string;
  title : maybe string;
  author : maybe string;
  packt_price : maybe number;
  packt_url : maybe string;
  last_updated : maybe string;
  created_at : maybe string;
}.

Definition to_js (b : t) : js :=
  JObj [("id", JInt (id b));
        ("isbn", JStr (isbn b));
        ("title", js_of_maybe JStr (title b));
        ("author", js_of_maybe JStr (author b));
        ("packt_price", js_of_maybe JNum (packt_price b));
        ("packt_url", js_of_maybe JStr (packt_url b));
        ("last_updated", js_of_maybe JStr (last_updated b));
        ("created_at", js_of_maybe JStr (created_at b))]%string.
End Book.

Module BookListResponse.
Record t := {
  books : list Book.t;
  total : Z;
  page : Z;
  limit : Z;
  total_pages : Z;
}.

Definition to_js (r : t) : js :=
  JObj [("books", JArr (map Book.to_js (books r)));
        ("total", JInt (total r));
        ("page", JInt (page r));
        ("limit", JInt (limit r));
        ("total_pages", JInt (total_pages r))]%string.
End BookListResponse.

Module PriceHistory.
Record t := {
  id : Z;
  book_id : Z;
  source : string;
  price : maybe number;
  timestamp : string;
}.

Definition to_js (h : t) : js :=
  JObj [("id", JInt (id h));
        ("book_id", JInt (book_id h));
        ("source", JStr (source h));
        ("price", js_of_maybe JNum (price h));
        ("timestamp", JStr (timestamp h))]%string.
End PriceHistory.

Module Alert.
(** [book?: Book] is [undefined] when the server leaves it out. *)
Record t := {
  id : Z;
  book_id : Z;
  book : maybe Book.t;
  threshold_type : string;
  threshold_value : number;
  packt_price : number;
  third_party_price : number;
  third_party_source : string;
  notified_at : string;
  status : string;
}.

Definition to_js (a : t) : js :=
  JObj [("id", JInt (id a));
        ("book_id", JInt (book_id a));
        ("book", js_of_maybe Book.to_js (book a));
        ("threshold_type", JStr (threshold_type a));
        ("threshold_value", JNum (threshold_value a));
        ("packt_price", JNum (packt_price a));
        ("third_party_price", JNum (third_party_price a));
        ("third_party_source", JStr (third_party_source a));
        ("notified_at", JStr (notified_at a));
        ("status", JStr (status a))]%string.
End Alert.

Module AlertListResponse.
Record t := {
  alerts : list Alert.t;
  total : Z;
  page : Z;
  limit : Z;
  total_pages : Z;
}.

Definition to_js (r : t) : js :=
  JObj [("alerts", JArr (map Alert.to_js (alerts r)));
        ("total", JInt (total r));
        ("page", JInt (page r));
        ("limit", JInt (limit r));
        ("total_pages", JInt (total_pages r))]%string.
End AlertListResponse.

Module SyncHistory.
Record t := {
  id : Z;
  filename : string;
  last_processed_time : string;
  rows_processed : Z;
  rows_inserted : Z;
  rows_updated : Z;
}.

Definition to_js (h : t) : js :=
  JObj [("id", JInt (id h));
        ("filename", JStr (filename h));
        ("last_processed_time", JStr (last_processed_time h));
        ("rows_processed", JInt (rows_processed h));
        ("rows_inserted", JInt (rows_inserted h));
        ("rows_updated", JInt (rows_updated h))]%string.
End SyncHistory.

Module SyncHistoryListResponse.
Record t := {
  history : list SyncHistory.t;
  total : Z;
}.

Definition to_js (r : t) : js :=
  JObj [("history", JArr (map SyncHistory.to_js (history r)));
        ("total", JInt (total r))]%string.
End SyncHistoryListResponse.

(** *** [utils/formatters.ts] *)

Definition formatPrice (price : maybe number) : string :=
  match price with
  | null | undefined => "N/A"
  | value p => "$" +:+ toFixed p 2
  end.

Definition formatPercentage (v : maybe number) : string :=
  match v with
  | null | undefined => "N/A"
  | value x => toFixed x 2 +:+ "%"
  end.

Definition formatISBN (isbn : string) : string := isbn.

(** A leading minus sign taken off. *)
Definition strip_minus (s : string) : string :=
  match s with
  | String c rest => if (c =? "-")%char then rest else s
  | EmptyString => s
  end.

(** The shape of an amount with exactly two decimal places: a dollar sign,
    an optional minus, one or more digits, a point, two digits. *)
Definition two_decimal_places (s : string) : bool :=
  match s with
  | String c body =>
      (c =? "$")%char &&
      match String.rev (strip_minus body) with
      | String d0 (String d1 (String p (String i0 int_rev))) =>
          is_digit d0 && is_digit d1 && (p =? ".")%char &&
          is_digit i0 && all_digits int_rev
      | _ => false
      end
  | EmptyString => false
  end.

(** *** [services/api.ts]: the axios client *)

Inductive Method := GET | POST.

Inductive Param :=
  | PStr (s : string)
  | PInt (n : Z)
  | PBool (b : bool).

(** What one call of the client puts on the wire. *)
Record Request := {
  method : Method;
  url : string;
  params : list (string * Param);
}.

(** axios leaves a parameter whose value is [undefined] out of the query. *)
Definition param {A} (k : string) (f : A -> Param) (v : option A)
  : list (string * Param) :=
  match v with
  | Some a => [(k, f a)]
  | None => []
  end.

Definition api_get (url : string) (params : list (string * Param)) : Request :=
  {| method := GET; url := url; params := params |}.

Definition api_post (url : string) : Request :=
  {| method := POST; url := url; params := [] |}.

Module BooksListParams.
Record t := {
  search : option string;
  sort : option string;
  order : option string;
  page : option Z;
  limit : option Z;
  alert_only : option bool;
}.
End BooksListParams.

Module AlertsListParams.
Record t := {
  status : option string;
  date_from : option string;
  date_to : option string;
  page : option Z;
  limit : option Z;
}.
End AlertsListParams.

Module booksAPI.
Definition getByISBN (isbn : string) : Request :=
  api_get ("/api/books/" +:+ isbn) [].

Definition getPriceHistory (bookId : Z) (limit : option Z) : Request :=
  api_get ("/api/books/" +:+ show_int bookId +:+ "/price-history")
          [("limit", PInt (default 100 limit))]%string.

Definition list (params : option BooksListParams.t) : Request :=
  api_get "/api/books"
    match params with
    | None => []
    | Some p =>
        param "search" PStr (BooksListParams.search p) ++
        param "sort" PStr (BooksListParams.sort p) ++
        param "order" PStr (BooksListParams.order p) ++
        param "page" PInt (BooksListParams.page p) ++
        param "limit" PInt (BooksListParams.limit p) ++
        param "alert_only" PBool (BooksListParams.alert_only p)
    end.
End booksAPI.

Module alertsAPI.
Definition getActive (page limit : option Z) : Request :=
  api_get "/api/alerts/active"
          [("page", PInt (default 1 page)); ("limit", PInt (default 50 limit))]%string.

Definition get (alertId : Z) : Request :=
  api_get ("/api/alerts/" +:+ show_int alertId) [].

Definition acknowledge (alertId : Z) : Request :=
  api_post ("/api/alerts/" +:+ show_int alertId +:+ "/acknowledge").

Definition list (params : option AlertsListParams.t) : Request :=
  api_get "/api/alerts"
    match params with
    | None => []
    | Some p =>
        param "status" PStr (AlertsListParams.status p) ++
        param "date_from" PStr (AlertsListParams.date_from p) ++
        param "date_to" PStr (AlertsListParams.date_to p) ++
        param "page" PInt (AlertsListParams.page p) ++
        param "limit" PInt (AlertsListParams.limit p)
    end.
End alertsAPI.

Module statsAPI.
Definition getDashboard : Request := api_get "/api/stats/dashboard" [].

Definition getPriceTrends (days bookId : option Z) : Request :=
  api_get "/api/stats/price-trends"
          ([("days", PInt (default 30 days))]%string ++ param "book_id" PInt bookId).

Definition getComparison : Request := api_get "/api/stats/comparison" [].

Definition getPriceDistribution : Request :=
  api_get "/api/stats/price-distribution" [].

Definition getDataQuality : Request := api_get "/api/stats/data-quality" [].

Definition getRecentActivity (days : option Z) : Request :=
  api_get "/api/stats/recent-activity" [("days", PInt (default 30 days))]%string.
End statsAPI.

Module syncAPI.
Definition getStatus : Request := api_get "/api/sync/status" [].

Definition getHistory (limit : option Z) : Request :=
  api_get "/api/sync/history" [("limit", PInt (default 50 limit))]%string.
End syncAPI.

(** Every operation the client exports, with its arguments. *)
Inductive Operation :=
  | BooksList (params : option BooksListParams.t)
  | BooksGetByISBN (isbn : string)
  | BooksGetPriceHistory (bookId : Z) (limit : option Z)
  | AlertsList (params : option AlertsListParams.t)
  | AlertsGetActive (page limit : option Z)
  | AlertsGet (alertId : Z)
  | AlertsAcknowledge (alertId : Z)
  | StatsGetDashboard
  | StatsGetPriceTrends (days bookId : option Z)
  | StatsGetComparison
  | StatsGetPriceDistribution
  | StatsGetDataQuality
  | StatsGetRecentActivity (days : option Z)
  | SyncGetStatus
  | SyncGetHistory (limit : option Z).

Definition issue (op : Operation) : Request :=
  match op with
  | BooksList params => booksAPI.list params
  | BooksGetByISBN isbn => booksAPI.getByISBN isbn
  | BooksGetPriceHistory bookId limit => booksAPI.getPriceHistory bookId limit
  | AlertsList params => alertsAPI.list params
  | AlertsGetActive page limit => alertsAPI.getActive page limit
  | AlertsGet alertId => alertsAPI.get alertId
  | AlertsAcknowledge alertId => alertsAPI.acknowledge alertId
  | StatsGetDashboard => statsAPI.getDashboard
  | StatsGetPriceTrends days bookId => statsAPI.getPriceTrends days bookId
  | StatsGetComparison => statsAPI.getComparison
  | StatsGetPriceDistribution => statsAPI.getPriceDistribution
  | StatsGetDataQuality => statsAPI.getDataQuality
  | StatsGetRecentActivity days => statsAPI.getRecentActivity days
  | SyncGetStatus => syncAPI.getStatus
  | SyncGetHistory limit => syncAPI.getHistory limit
  end.

(** The client's operations that return a listing, and the type each declares
    for [response.data]. *)
Inductive ListEndpoint :=
  | ListBooks             (* booksAPI.list: Promise<BookListResponse> *)
  | ListPriceHistory      (* booksAPI.getPriceHistory: Promise<PriceHistory[]> *)
  | ListAlerts            (* alertsAPI.list: Promise<AlertListResponse> *)
  | ListActiveAlerts      (* alertsAPI.getActive: Promise<AlertListResponse> *)
  | ListSyncHistory.      (* syncAPI.getHistory: Promise<SyncHistoryListResponse> *)

Definition response_data (e : ListEndpoint) : Type :=
  match e with
  | ListBooks => BookListResponse.t
  | ListPriceHistory => list PriceHistory.t
  | ListAlerts | ListActiveAlerts => AlertListResponse.t
  | ListSyncHistory => SyncHistoryListResponse.t
  end.

Definition response_js (e : ListEndpoint) : response_data e -> js :=
  match e with
  | ListBooks => BookListResponse.to_js
  | ListPriceHistory => fun l => JArr (map PriceHistory.to_js l)
  | ListAlerts | ListActiveAlerts => AlertListResponse.to_js
  | ListSyncHistory => SyncHistoryListResponse.to_js
  end.

(** A paginated listing: the items under [items], with the total count, the
    page, the limit and the number of pages. *)
Definition five_tuple (items : string) (o : js) : bool :=
  has_key items o && has_key "total" o && has_key "page" o &&
  has_key "limit" o && has_key "total_pages" o.

Definition is_paginated (o : js) : bool :=
  existsb (fun items => five_tuple items o) (keys o).

(** The listings the client types as paginated. *)
Definition paginated (e : ListEndpoint) : bool :=
  match e with
  | ListBooks | ListAlerts | ListActiveAlerts => true
  | ListPriceHistory | ListSyncHistory => false
  end.

(** *** [hooks/]: React Query hooks *)

Inductive HookResult :=
  | useQuery (queryFn : Request) (enabled : bool)
  | useMutation (mutationFn : Z -> Request).

(** [!!isbn] and [!!bookId] *)
Definition nonempty (s : string) : bool := negb (s =? "")%string.
Definition nonzero (n : Z) : bool := negb (n =? 0).

Definition useBooks (params : option BooksListParams.t) : HookResult :=
  useQuery (booksAPI.list params) true.
Definition useBook (isbn : string) : HookResult :=
  useQuery (booksAPI.getByISBN isbn) (nonempty isbn).
Definition usePriceHistory (bookId : Z) (limit : option Z) : HookResult :=
  useQuery (booksAPI.getPriceHistory bookId (Some (default 100 limit))) (nonzero bookId).
Definition useAlerts (params : option AlertsListParams.t) : HookResult :=
  useQuery (alertsAPI.list params) true.
Definition useActiveAlerts (page limit : option Z) : HookResult :=
  useQuery (alertsAPI.getActive (Some (default 1 page)) (Some (default 50 limit))) true.
Definition useAlert (alertId : Z) : HookResult :=
  useQuery (alertsAPI.get alertId) (nonzero alertId).
Definition useAcknowledgeAlert : HookResult :=
  useMutation (fun alertId => alertsAPI.acknowledge alertId).
Definition useDashboardStats : HookResult := useQuery statsAPI.getDashboard true.
Definition usePriceTrends (days bookId : option Z) : HookResult :=
  useQuery (statsAPI.getPriceTrends (Some (default 30 days)) bookId) true.
Definition useComparisonStats : HookResult := useQuery statsAPI.getComparison true.
Definition usePriceDistribution : HookResult :=
  useQuery statsAPI.getPriceDistribution true.
Definition useDataQuality : HookResult := useQuery statsAPI.getDataQuality true.
Definition useRecentActivity (days : option Z) : HookResult :=
  useQuery (statsAPI.getRecentActivity (Some (default 30 days))) true.

(** Every hook of [useBooks.ts], [useAlerts.ts] and [useStats.ts]. *)
Inductive Hook :=
  | UseBooks (params : option BooksListParams.t)
  | UseBook (isbn : string)
  | UsePriceHistory (bookId : Z) (limit : option Z)
  | UseAlerts (params : option AlertsListParams.t)
  | UseActiveAlerts (page limit : option Z)
  | UseAlert (alertId : Z)
  | UseAcknowledgeAlert
  | UseDashboardStats
  | UsePriceTrends (days bookId : option Z)
  | UseComparisonStats
  | UsePriceDistribution
  | UseDataQuality
  | UseRecentActivity (days : option Z).

Definition run_hook (h : Hook) : HookResult :=
  match h with
  | UseBooks params => useBooks params
  | UseBook isbn => useBook isbn
  | UsePriceHistory bookId limit => usePriceHistory bookId limit
  | UseAlerts params => useAlerts params
  | UseActiveAlerts page limit => useActiveAlerts page limit
  | UseAlert alertId => useAlert alertId
  | UseAcknowledgeAlert => useAcknowledgeAlert
  | UseDashboardStats => useDashboardStats
  | UsePriceTrends days bookId => usePriceTrends days bookId
  | UseComparisonStats => useComparisonStats
  | UsePriceDistribution => usePriceDistribution
  | UseDataQuality => useDataQuality
  | UseRecentActivity days => useRecentActivity days
  end.

(** The requests a hook can put on the wire: the query function's, or the
    mutation function's at any argument. *)
Definition hook_issues (h : HookResult) (r : Request) : Prop :=
  match h with
  | useQuery q _ => r = q
  | useMutation f => exists alertId, r = f alertId
  end.

(** *** [pages/Alerts.tsx]: one card per alert *)

(** [alert.book?.f] *)
Definition book_field (a : Alert.t) (f : Book.t -> maybe string) : maybe string :=
  match Alert.book a with
  | value b => f b
  | _ => undefined
  end.

Module AlertCard.
Record t := {
  heading : string;
  badge : string;
  byline : string;
  packt_price : string;
  third_party_label : string;
  third_party_price : string;
  savings : string;
  threshold : string;
  view_book : option string;
  acknowledge_button : bool;
}.
End AlertCard.

Definition alert_card (alert : Alert.t) : AlertCard.t :=
  {| AlertCard.heading := or_else (book_field alert Book.title) "Unknown Book";
     AlertCard.badge := Alert.status alert;
     AlertCard.byline :=
       "ISBN: " +:+ or_else (book_field alert (fun b => value (Book.isbn b))) "N/A" +:+
       " | Author: " +:+ or_else (book_field alert Book.author) "N/A";
     AlertCard.packt_price := formatPrice (value (Alert.packt_price alert));
     AlertCard.third_party_label := Alert.third_party_source alert +:+ " Price";
     AlertCard.third_party_price := formatPrice (value (Alert.third_party_price alert));
     AlertCard.savings :=
       formatPrice (value (Alert.packt_price alert - Alert.third_party_price alert)%float);
     AlertCard.threshold := "Threshold: " +:+ Alert.threshold_type alert;
     AlertCard.view_book :=
       match Alert.book alert with
       | value b => Some ("/books/" +:+ Book.isbn b)
       | _ => None
       end;
     AlertCard.acknowledge_button := (Alert.status alert =? "sent")%string |}.

(** *** [components/dashboard/RecentAlerts.tsx]: one row per active alert *)

Module RecentAlert.
Record t := {
  heading : string;
  isbn : string;
  packt : string;
  third_party : string;
  save : string;
}.
End RecentAlert.

Definition recent_alert (alert : Alert.t) : RecentAlert.t :=
  {| RecentAlert.heading := or_else (book_field alert Book.title) "Unknown Book";
     RecentAlert.isbn :=
       "ISBN: " +:+ or_else (book_field alert (fun b => value (Book.isbn b))) "N/A";
     RecentAlert.packt := "Packt: " +:+ formatPrice (value (Alert.packt_price alert));
     RecentAlert.third_party :=
       Alert.third_party_source alert +:+ ": " +:+
       formatPrice (value (Alert.third_party_price alert));
     RecentAlert.save :=
       "Save: " +:+
       formatPrice (value (Alert.packt_price alert - Alert.third_party_price alert)%float) |}.

(** *** [pages/Books.tsx] and [components/dashboard/BooksNeedingAttention.tsx] *)

(** [!v || v.trim() === ''] *)
Definition blank (v : maybe string) : bool :=
  negb (truthy_string v) ||
  match v with
  | value s => (trim s =? "")%string
  | _ => false
  end.

Definition getAttentionIssues (book : Book.t) : list string :=
  let issues := [] in
  let issues :=
    if blank (Book.author book) then issues ++ ["Missing Author"%string] else issues in
  let issues :=
    if blank (Book.packt_url book) then issues ++ ["Missing URL"%string] else issues in
  let issues :=
    if negb (truthy_number (Book.packt_price book))
    then issues ++ ["Missing Price"%string] else issues in
  issues.

Module IssueGroups.
Record t := {
  missing_author : list Book.t;
  missing_url : list Book.t;
  missing_price : list Book.t;
}.
End IssueGroups.

(** The body of the [forEach] over [books_needing_attention]. *)
Definition group_book (g : IssueGroups.t) (book : Book.t) : IssueGroups.t :=
  {| IssueGroups.missing_author :=
       if blank (Book.author book)
       then IssueGroups.missing_author g ++ [book] else IssueGroups.missing_author g;
     IssueGroups.missing_url :=
       if blank (Book.packt_url book)
       then IssueGroups.missing_url g ++ [book] else IssueGroups.missing_url g;
     IssueGroups.missing_price :=
       if negb (truthy_number (Book.packt_price book))
       then IssueGroups.missing_price g ++ [book] else IssueGroups.missing_price g |}.

Definition booksByIssue (books_needing_attention : list Book.t) : IssueGroups.t :=
  fold_left group_book books_needing_attention
    {| IssueGroups.missing_author := [];
       IssueGroups.missing_url := [];
       IssueGroups.missing_price := [] |}.

(** A book with another tracked price, and the test both data-quality views
    apply to it: [!book.packt_price]. *)
Definition with_packt_price (book : Book.t) (v : maybe number) : Book.t :=
  {| Book.id := Book.id book;
     Book.isbn := Book.isbn book;
     Book.title := Book.title book;
     Book.author := Book.author book;
     Book.packt_price := v;
     Book.packt_url := Book.packt_url book;
     Book.last_updated := Book.last_updated book;
     Book.created_at := Book.created_at book |}.

Definition price_missing (book : Book.t) : bool :=
  negb (truthy_number (Book.packt_price book)).

End Frontend.

(** ** The pages and components around the cited cells *)

Module Pages.
Import Js Frontend.

(** *** Pagination of [pages/Books.tsx] and [pages/Alerts.tsx]

    Both pages keep the page number in a state cell, show twenty rows a page
    and carry the same footer. A disabled button delivers no click. *)

Definition showing_from (page : Z) : Z := (page - 1) * 20 + 1.

Definition showing_to (page total : Z) : Z := Z.min (page * 20) total.

Definition previous_disabled (page : Z) : bool := page =? 1.

Definition next_disabled (page total_pages : Z) : bool := total_pages <=? page.

Definition previous_page (p : Z) : Z := Z.max 1 (p - 1).

Definition next_page (total_pages p : Z) : Z := Z.min total_pages (p + 1).

Inductive Click :=
  | Previous
  | Next (total_pages : Z).

(** One click on a footer button; [total_pages] is that of the response on
    screen at the time. *)
Definition click (page : Z) (c : Click) : Z :=
  match c with
  | Previous => if previous_disabled page then page else previous_page page
  | Next total_pages =>
      if next_disabled page total_pages then page else next_page total_pages page
  end.

(** *** [pages/Books.tsx]: the state of the list and its query *)

Inductive Order := asc | desc.

Definition order_name (o : Order) : string :=
  match o with
  | asc => "asc"
  | desc => "desc"
  end.

Module BooksState.
Record t := {
  search : string;
  page : Z;
  sort : string;
  order : Order;
}.
End BooksState.

Definition books_initial : BooksState.t :=
  {| BooksState.search := ""; BooksState.page := 1;
     BooksState.sort := "id"; BooksState.order := asc |}.

Definition handleSort (st : BooksState.t) (field : string) : BooksState.t :=
  if (BooksState.sort st =? field)%string
  then {| BooksState.search := BooksState.search st;
          BooksState.page := BooksState.page st;
          BooksState.sort := BooksState.sort st;
          BooksState.order :=
            match BooksState.order st with
            | asc => desc
            | desc => asc
            end |}
  else {| BooksState.search := BooksState.search st;
          BooksState.page := BooksState.page st;
          BooksState.sort := field;
          BooksState.order := asc |}.

(** [s || undefined] *)
Definition or_undefined (s : string) : option string :=
  if (s =? "")%string then None else Some s.

(** The argument of [useBooks]. *)
Definition books_params (st : BooksState.t) : BooksListParams.t :=
  {| BooksListParams.search := or_undefined (BooksState.search st);
     BooksListParams.sort := Some (BooksState.sort st);
     BooksListParams.order := Some (order_name (BooksState.order st));
     BooksListParams.page := Some (BooksState.page st);
     BooksListParams.limit := Some 20;
     BooksListParams.alert_only := None |}.

Definition books_query (st : BooksState.t) : HookResult :=
  useBooks (Some (books_params st)).

(** *** [pages/Alerts.tsx]: the state of the list and its query *)

Module AlertsState.
Record t := {
  page : Z;
  status : string;
}.
End AlertsState.

Definition alerts_initial : AlertsState.t :=
  {| AlertsState.page := 1; AlertsState.status := "" |}.

(** The [onChange] of the status filter. *)
Definition select_status (st : AlertsState.t) (v : string) : AlertsState.t :=
  {| AlertsState.page := 1; AlertsState.status := v |}.

Definition alerts_params (st : AlertsState.t) : AlertsListParams.t :=
  {| AlertsListParams.status := or_undefined (AlertsState.status st);
     AlertsListParams.date_from := None;
     AlertsListParams.date_to := None;
     AlertsListParams.page := Some (AlertsState.page st);
     AlertsListParams.limit := Some 20 |}.

Definition alerts_query (st : AlertsState.t) : HookResult :=
  useAlerts (Some (alerts_params st)).

(** The colours of the status badge of a card. *)
Definition badge_class (status : string) : string :=
  if (status =? "sent")%string then "bg-red-100 text-red-800"
  else if (status =? "acknowledged")%string then "bg-green-100 text-green-800"
  else "bg-gray-100 text-gray-800".

(** *** [pages/BookDetail.tsx] and [components/charts/PriceHistoryChart.tsx] *)

(** [book?.id || 0] *)
Definition book_id_or_zero (book : maybe Book.t) : Z :=
  match book with
  | value b => if Book.id b =? 0 then 0 else Book.id b
  | _ => 0
  end.

(** The two queries of the detail page, for the [isbn] of the route and the
    book loaded so far. *)
Definition book_detail_book_query (isbn : maybe string) : HookResult :=
  useBook (or_else isbn "").

Definition book_detail_history_query (book : maybe Book.t) : HookResult :=
  usePriceHistory (book_id_or_zero book) None.

(** The query of the chart the page renders for a loaded book. *)
Definition price_history_chart_query (bookId : Z) : HookResult :=
  usePriceHistory bookId (Some 100).

(** The tooltip formatters of the two line charts. *)
Definition price_history_tooltip (v : maybe number) : string :=
  if truthy_number v then formatPrice v else "N/A".

Definition price_trends_tooltip (v : maybe number) : string :=
  match v with
  | value x => if truthy_number v then "$" +:+ toFixed x 2 else "N/A"
  | _ => "N/A"
  end.

(** *** Query keys of the hooks, and what acknowledging invalidates *)

Inductive Primitive :=
  | PrimStr (s : string)
  | PrimInt (n : Z).

Inductive KeyPart :=
  | KPrim (p : Primitive)
  | KUndefined
  | KBooksParams (params : option BooksListParams.t)
  | KAlertsParams (params : option AlertsListParams.t).

Definition kstr (s : string) : KeyPart := KPrim (PrimStr s).
Definition kint (n : Z) : KeyPart := KPrim (PrimInt n).

(** The [queryKey] of each hook; the mutation has none. *)
Definition queryKey (h : Hook) : option (list KeyPart) :=
  match h with
  | UseBooks params => Some [kstr "books"; KBooksParams params]
  | UseBook isbn => Some [kstr "book"; kstr isbn]
  | UsePriceHistory bookId limit =>
      Some [kstr "price-history"; kint bookId; kint (default 100 limit)]
  | UseAlerts params => Some [kstr "alerts"; KAlertsParams params]
  | UseActiveAlerts page limit =>
      Some [kstr "alerts"; kstr "active"; kint (default 1 page);
            kint (default 50 limit)]
  | UseAlert alertId => Some [kstr "alert"; kint alertId]
  | UseAcknowledgeAlert => None
  | UseDashboardStats => Some [kstr "stats"; kstr "dashboard"]
  | UsePriceTrends days bookId =>
      Some [kstr "stats"; kstr "price-trends"; kint (default 30 days);
            match bookId with
            | Some b => kint b
            | None => KUndefined
            end]
  | UseComparisonStats => Some [kstr "stats"; kstr "comparison"]
  | UsePriceDistribution => Some [kstr "stats"; kstr "price-distribution"]
  | UseDataQuality => Some [kstr "stats"; kstr "data-quality"]
  | UseRecentActivity days =>
      Some [kstr "stats"; kstr "recent-activity"; kint (default 30 days)]
  end.

Definition primitive_eqb (p q : Primitive) : bool :=
  match p, q with
  | PrimStr a, PrimStr b => (a =? b)%string
  | PrimInt a, PrimInt b => a =? b
  | _, _ => false
  end.

(** React Query's partial matching of a query key against a filter key of
    primitives: the filter is a prefix of the key. *)
Fixpoint partialMatchKey (key : list KeyPart) (filter : list Primitive) : bool :=
  match filter with
  | [] => true
  | q :: filter' =>
      match key with
      | KPrim p :: key' => primitive_eqb p q && partialMatchKey key' filter'
      | _ => false
      end
  end.

(** The filter [useAcknowledgeAlert] invalidates with on success. *)
Definition acknowledge_invalidates : list Primitive := [PrimStr "alerts"].

(** *** [components/common/Sidebar.tsx] *)

Definition navigation : list (string * string) :=
  [("Dashboard", "/"); ("Books", "/books"); ("Alerts", "/alerts");
   ("Trends", "/trends")]%string.

Definition isActive (pathname : string) (item : string * string) : bool :=
  (pathname =? snd item)%string.

Definition link_class (pathname : string) (item : string * string) : string :=
  "flex items-center px-4 py-2 rounded-lg transition-colors " +:+
  (if isActive pathname item then "bg-blue-600 text-white"
   else "text-gray-700 hover:bg-gray-100").

(** *** [components/charts/PriceTiersChart.tsx] *)

Module PriceBucket.
Record t := {
  range : string;
  count : Z;
  percentage : number;
}.
End PriceBucket.

Module Tier.
Record t := {
  name : string;
  count : Z;
  color : string;
}.
End Tier.

Definition COLORS : list string :=
  ["#3b82f6"; "#10b981"; "#f59e0b"; "#ef4444"; "#8b5cf6"; "#ec4899"; "#06b6d4"]%string.

Definition tiers : list Tier.t :=
  [{| Tier.name := "Budget ($0-10)"; Tier.count := 0;
      Tier.color := nth 0 COLORS ""%string |};
   {| Tier.name := "Mid-range ($10-20)"; Tier.count := 0;
      Tier.color := nth 1 COLORS ""%string |};
   {| Tier.name := "Premium ($20-30)"; Tier.count := 0;
      Tier.color := nth 2 COLORS ""%string |};
   {| Tier.name := "Premium+ ($30+)"; Tier.count := 0;
      Tier.color := nth 3 COLORS ""%string |}].

(** The tier a range label adds to, if any. *)
Definition tier_index (range : string) : option nat :=
  if (range =? "$0-5")%string || (range =? "$5-10")%string then Some 0%nat
  else if (range =? "$10-15")%string || (range =? "$15-20")%string then Some 1%nat
  else if (range =? "$20-25")%string || (range =? "$25-30")%string then Some 2%nat
  else if (range =? "$30+")%string then Some 3%nat
  else None.

Definition add_count (n : Z) (tier : Tier.t) : Tier.t :=
  {| Tier.name := Tier.name tier; Tier.count := Tier.count tier + n;
     Tier.color := Tier.color tier |}.

(** The body of the [forEach] over the buckets. *)
Definition add_bucket (ts : list Tier.t) (bucket : PriceBucket.t) : list Tier.t :=
  match tier_index (PriceBucket.range bucket) with
  | Some i => alter (add_count (PriceBucket.count bucket)) i ts
  | None => ts
  end.

Definition grouped_tiers (buckets : list PriceBucket.t) : list Tier.t :=
  fold_left add_bucket buckets tiers.

Definition chartData (buckets : list PriceBucket.t) : list Tier.t :=
  List.filter (fun tier => 0 <? Tier.count tier) (grouped_tiers buckets).

(** *** [components/dashboard/SummaryCards.tsx] *)

Module DashboardStats.
Record t := {
  total_books : Z;
  active_alerts : Z;
  average_price_difference : maybe number;
  total_savings_opportunity : maybe number;
  books_with_alerts : Z;
  total_catalog_value : maybe number;
  min_price : maybe number;
  max_price : maybe number;
  average_price : maybe number;
  books_missing_authors : Z;
  books_missing_urls : Z;
  books_without_price_history : Z;
  data_completeness_percentage : maybe number;
}.
End DashboardStats.

Module Card.
Record t := {
  title : string;
  value : string;
  color : string;
  subtitle : option string;
}.
End Card.

Definition catalogCards (stats : DashboardStats.t) : list Card.t :=
  [{| Card.title := "Total Books";
      Card.value := show_int (DashboardStats.total_books stats);
      Card.color := "bg-blue-500"; Card.subtitle := None |};
   {| Card.title := "Catalog Value";
      Card.value :=
        if truthy_number (DashboardStats.total_catalog_value stats)
        then formatPrice (DashboardStats.total_catalog_value stats)
        else "$0.00";
      Card.color := "bg-purple-500"; Card.subtitle := None |};
   {| Card.title := "Average Price";
      Card.value :=
        if truthy_number (DashboardStats.average_price stats)
        then formatPrice (DashboardStats.average_price stats)
        else "N/A";
      Card.color := "bg-green-500"; Card.subtitle := None |};
   {| Card.title := "Price Range";
      Card.value :=
        if truthy_number (DashboardStats.min_price stats)
           && truthy_number (DashboardStats.max_price stats)
        then formatPrice (DashboardStats.min_price stats) +:+ " - " +:+
             formatPrice (DashboardStats.max_price stats)
        else "N/A";
      Card.color := "bg-indigo-500"; Card.subtitle := None |}].

Definition qualityCards (stats : DashboardStats.t) : list Card.t :=
  [{| Card.title := "Missing Authors";
      Card.value := show_int (DashboardStats.books_missing_authors stats);
      Card.color := "bg-orange-500";
      Card.subtitle :=
        Some (if 0 <? DashboardStats.books_missing_authors stats
              then "Needs attention"%string else "All complete"%string) |};
   {| Card.title := "Missing URLs";
      Card.value := show_int (DashboardStats.books_missing_urls stats);
      Card.color := "bg-pink-500";
      Card.subtitle :=
        Some (if 0 <? DashboardStats.books_missing_urls stats
              then "Needs attention"%string else "All complete"%string) |};
   {| Card.title := "No Price History";
      Card.value := show_int (DashboardStats.books_without_price_history stats);
      Card.color := "bg-yellow-500";
      Card.subtitle :=
        Some (if 0 <? DashboardStats.books_without_price_history stats
              then "Not tracked"%string else "All tracked"%string) |};
   {| Card.title := "Data Completeness";
      Card.value :=
        match DashboardStats.data_completeness_percentage stats with
        | value x => toFixed x 1 +:+ "%"
        | _ => "0%"
        end;
      Card.color := "bg-teal-500";
      Card.subtitle := Some "Complete records"%string |}].

(** The value of the card with a given title. *)
Definition card_value (title : string) (cards : list Card.t) : option string :=
  match find (fun c => (Card.title c =? title)%string) cards with
  | Some c => Some (Card.value c)
  | None => None
  end.

(** *** [components/dashboard/BooksNeedingAttention.tsx]: the sections *)

Module IssueSection.
Record t := {
  heading : string;
  rows : list Book.t;
  more : option string;
}.
End IssueSection.

(** One entry of [Object.entries(booksByIssue)]: no section for an empty
    group, else the heading with the count, the first five books and the
    note on those left out. *)
Definition issue_section (label : string) (books : list Book.t)
  : option IssueSection.t :=
  if (length books =? 0)%nat then None
  else
    Some {| IssueSection.heading :=
              label +:+ " (" +:+ show_int (Z.of_nat (length books)) +:+ ")";
            IssueSection.rows := take 5 books;
            IssueSection.more :=
              if (5 <? length books)%nat
              then Some ("+" +:+ show_int (Z.of_nat (length books) - 5) +:+
                         " more books with this issue")
              else None |}.

Definition attention_sections (books_needing_attention : list Book.t)
  : list (option IssueSection.t) :=
  let g := booksByIssue books_needing_attention in
  [issue_section "Missing Author" (IssueGroups.missing_author g);
   issue_section "Missing URL" (IssueGroups.missing_url g);
   issue_section "Missing Price" (IssueGroups.missing_price g)].

(** What React renders for [{book.packt_price && text}]: nothing for [null]
    and [undefined], the number itself when it is falsy ([0] or [NaN]), and
    the text otherwise. *)
Definition and_text (v : maybe number) (text : string) : string :=
  match v with
  | value x =>
      if PrimFloat.is_nan x then "NaN"
      else if PrimFloat.eqb x 0 then "0"
      else text
  | _ => ""
  end.

(** The bullet U+2022 of the source text, in UTF-8. *)
Definition bullet : string :=
  String (ascii_of_nat 226) (String (ascii_of_nat 128) (String (ascii_of_nat 162) "")).

(** The second line of a row: the ISBN, then the price when there is one. *)
Definition row_subtitle (book : Book.t) : string :=
  "ISBN: " +:+ Book.isbn book +:+
  and_text (Book.packt_price book)
           (" " +:+ bullet +:+ " Price: " +:+ formatPrice (Book.packt_price book)).

(** *** Measures the properties are stated with *)


(** The books counted by the buckets whose range adds to tier [i]. *)
Fixpoint tier_total (i : nat) (buckets : list PriceBucket.t) : Z :=
  match buckets with
  | [] => 0
  | b :: rest =>
      (if bool_decide (tier_index (PriceBucket.range b) = Some i)
       then PriceBucket.count b else 0) + tier_total i rest
  end.

Definition total_count (ts : list Tier.t) : Z :=
  foldr (fun tier acc => Tier.count tier + acc) 0 ts.

(** The number a string of decimal digits denotes. *)
Definition digits_value (s : string) : Z :=
  fold_left (fun acc c => 10 * acc + (Z.of_N (N_of_ascii c) - 48))
            (list_ascii_of_string s) 0.

(** The integer a string written by [show_int] denotes. *)
Definition read_int (s : string) : Z :=
  match s with
  | String c rest => if (c =? "-")%char then - digits_value rest else digits_value s
  | EmptyString => 0
  end.

(** *** Sample values *)

Definition complete_book : Book.t :=
  {| Book.id := 7; Book.isbn := "9781801819312";
     Book.title := value "Systems Programming in Practice";
     Book.author := value "M. Okafor";
     Book.packt_price := value 39.99%float;
     Book.packt_url := value "https://www.packtpub.com/product/9781801819312";
     Book.last_updated := value "2024-03-01T08:00:00"; Book.created_at := null |}.

(** The same book given away: a price of zero. *)
Definition free_book : Book.t := with_packt_price complete_book (value 0%float).

Definition unsigned_book : Book.t :=
  {| Book.id := 8; Book.isbn := "9781803230000";
     Book.title := value "Untitled Draft"; Book.author := value "   ";
     Book.packt_price := value 19.99%float; Book.packt_url := null;
     Book.last_updated := null; Book.created_at := null |}.

Definition sent_alert : Alert.t :=
  {| Alert.id := 12; Alert.book_id := 7; Alert.book := value complete_book;
     Alert.threshold_type := "percentage"; Alert.threshold_value := 10%float;
     Alert.packt_price := 39.99%float; Alert.third_party_price := 31.5%float;
     Alert.third_party_source := "amazon";
     Alert.notified_at := "2024-03-02T09:30:00"; Alert.status := "sent" |}.

Definition bucket (range : string) (count : Z) : PriceBucket.t :=
  {| PriceBucket.range := range; PriceBucket.count := count;
     PriceBucket.percentage := 0%float |}.

Definition quiet_stats : DashboardStats.t :=
  {| DashboardStats.total_books := 120; DashboardStats.active_alerts := 0;
     DashboardStats.average_price_difference := null;
     DashboardStats.total_savings_opportunity := null;
     DashboardStats.books_with_alerts := 0;
     DashboardStats.total_catalog_value := value 0%float;
     DashboardStats.min_price := value 0%float;
     DashboardStats.max_price := value 59.99%float;
     DashboardStats.average_price := null;
     DashboardStats.books_missing_authors := 4;
     DashboardStats.books_missing_urls := 0;
     DashboardStats.books_without_price_history := 0;
     DashboardStats.data_completeness_percentage := value 96.5%float |}.

End Pages.

(** ** The pipeline (Python, outside the front end)

    The feed watcher, the synchronizer, the enricher, the comparator and the
    alert manager are not part of the TypeScript sources; the definitions of
    this module follow the design specification, section by section. Prices
    are exact decimals ([Q]), times are seconds ([Z]). *)

Module Pipeline.

(** Modelled from the spec: the Book row of the store (section 3), which the
    pipeline owns; the ISBN is the key, every other attribute is optional. *)
Record Book := {
  isbn : string;
  title : option string;
  author : option string;
  price : option Q;
  url : option string;
  last_updated : option string;
}.

(** Modelled from the spec: the append-only PriceHistory observation
    (section 3): book reference, source tag, price or null, observed-at. *)
Record PriceHistory := {
  ph_book : string;
  ph_source : string;
  ph_price : option Q;
  observed_at : Z;
}.

(** Modelled from the spec: the threshold policy of the configuration
    (section 6): [{type: percentage|absolute, value: number}]. *)
Inductive ThresholdType := Percentage | Absolute.

(** Modelled from the spec: a threshold policy: its type and its value, a
    percentage of the tracked price or a flat amount. *)
Record ThresholdPolicy := {
  threshold_type : ThresholdType;
  threshold_value : Q;
}.

(** Modelled from the spec: the recognized configuration options the later
    stages read (section 6): threshold policy, alert cooldown, and the
    recency window of the comparator (section 4.5). *)
Record Config := {
  threshold : ThresholdPolicy;
  cooldown : Z;
  recency_window : Z;
}.

(** Modelled from the spec: the Alert status values of section 3. *)
Inductive AlertStatus := PendingNotification | Sent | Acknowledged | Failed.

(** Modelled from the spec: the Alert row of section 3. *)
Record Alert := {
  alert_id : Z;
  book : string;
  alert_threshold : ThresholdPolicy;
  tracked_price : Q;
  competing_price : Q;
  competing_source : string;
  triggered_at : Z;
  status : AlertStatus;
}.

(** Modelled from the spec: the SyncHistory ledger row of section 3. *)
Record SyncHistory := {
  filename : string;
  processed_at : Z;
  rows_processed : Z;
  rows_inserted : Z;
  rows_updated : Z;
}.

(** Modelled from the spec: the persisted state layout of section 6: four
    tables and the last accepted feed fingerprint. *)
Record Store := {
  books : gmap string Book;
  price_history : list PriceHistory;
  alerts : list Alert;
  sync_history : list SyncHistory;
  last_fingerprint : option string;
}.

(** *** Price Comparator (section 4.5) *)

(** Modelled from the spec: the source tag of tracked-price observations. *)
Definition tracked_source : string := "packt".

(** Modelled from the spec: [delta = tracked_price - third_party_price]. *)
Definition delta (tracked third_party : Q) : Q := (tracked - third_party)%Q.

(** Modelled from the spec: the threshold "is met or exceeded", as a
    percentage of the tracked price or as a flat amount. *)
Definition threshold_met (p : ThresholdPolicy) (tracked d : Q) : bool :=
  match threshold_type p with
  | Percentage => Qle_bool (threshold_value p) (d / tracked * 100)%Q
  | Absolute => Qle_bool (threshold_value p) d
  end.

(** Modelled from the spec: the same condition as a proposition. *)
Definition threshold_reached (p : ThresholdPolicy) (tracked d : Q) : Prop :=
  match threshold_type p with
  | Percentage => (threshold_value p <= d / tracked * 100)%Q
  | Absolute => (threshold_value p <= d)%Q
  end.

(** Modelled from the spec: "a crossing occurs when [delta > 0] AND the
    threshold is met or exceeded". *)
Definition is_crossing (p : ThresholdPolicy) (tracked third_party : Q) : bool :=
  let d := delta tracked third_party in
  negb (Qle_bool d 0) && threshold_met p tracked d.

(** Modelled from the spec: a candidate crossing of one (book, source) pair. *)
Record Crossing := {
  c_book : string;
  c_source : string;
  c_tracked : Q;
  c_third_party : Q;
}.

(** Modelled from the spec: the comparator's pass over one observation: the
    book has a tracked price, the observation is a priced third-party one
    within the recency window, and the threshold is crossed. *)
Definition compare_observation (cfg : Config) (now : Z) (bks : gmap string Book)
    (h : PriceHistory) : option Crossing :=
  match bks !! ph_book h, ph_price h with
  | Some b, Some third_party =>
      match price b with
      | Some tracked =>
          if negb (ph_source h =? tracked_source)%string
             && (now - observed_at h <=? recency_window cfg)
             && is_crossing (threshold cfg) tracked third_party
          then Some {| c_book := ph_book h; c_source := ph_source h;
                       c_tracked := tracked; c_third_party := third_party |}
          else None
      | None => None
      end
  | _, _ => None
  end.

(** Modelled from the spec: the comparator; every (book, source) observation
    is its own candidate. *)
Definition comparator (cfg : Config) (now : Z) (st : Store) : list Crossing :=
  omap (compare_observation cfg now (books st)) (price_history st).

(** *** Alert Manager (section 4.6) *)

(** Modelled from the spec: the deduplication key of an alert, its (book,
    competing source) pair. *)
Definition same_pair (b s : string) (a : Alert) : bool :=
  (book a =? b)%string && (competing_source a =? s)%string.

(** Modelled from the spec: "the last trigger for that pair": the latest
    trigger time among the pair's alerts, whatever their status. *)
Definition later_trigger (b s : string) (acc : option Z) (a : Alert) : option Z :=
  if same_pair b s a
  then match acc with
       | Some t => Some (Z.max t (triggered_at a))
       | None => Some (triggered_at a)
       end
  else acc.

(** Modelled from the spec: the last trigger of a pair over the whole alert
    table; none when the pair has no alert yet (idle). *)
Definition last_trigger (b s : string) (als : list Alert) : option Z :=
  fold_left (later_trigger b s) als None.

(** Modelled from the spec: the cooldown is active until the configured
    period "has elapsed since the last trigger for that pair", whatever the
    status of the earlier alert. *)
Definition cooldown_active (cfg : Config) (now : Z) (b s : string)
    (als : list Alert) : bool :=
  match last_trigger b s als with
  | Some t => now - t <? cooldown cfg
  | None => false
  end.

(** Modelled from the spec: idle to sent on a qualifying crossing with no
    active cooldown: an Alert row is created and dispatch attempted; a failed
    dispatch marks it [failed]. Within the cooldown: a silent skip. *)
Definition on_crossing (cfg : Config) (now : Z) (dispatched : bool)
    (c : Crossing) (als : list Alert) : list Alert :=
  if cooldown_active cfg now (c_book c) (c_source c) als then als
  else
    als ++ [{| alert_id := Z.of_nat (length als) + 1;
               book := c_book c;
               alert_threshold := threshold cfg;
               tracked_price := c_tracked c;
               competing_price := c_third_party c;
               competing_source := c_source c;
               triggered_at := now;
               status := if dispatched then Sent else Failed |}].

(** Modelled from the spec: the acknowledge transition: the alert ends in
    [acknowledged], from any status. *)
Definition acknowledge (a : Alert) : Alert :=
  {| alert_id := alert_id a;
     book := book a;
     alert_threshold := alert_threshold a;
     tracked_price := tracked_price a;
     competing_price := competing_price a;
     competing_source := competing_source a;
     triggered_at := triggered_at a;
     status := Acknowledged |}.

(** Modelled from the spec: the acknowledge transition applied to the alert
    an id names, and to no other. *)
Definition acknowledge_by_id (id : Z) (a : Alert) : Alert :=
  if alert_id a =? id then acknowledge a else a.

(** Modelled from the spec: the alert-acknowledge action of the query
    service boundary, by alert id; it answers with the acknowledged Alert,
    and has none to answer with when the id names no Alert. *)
Definition acknowledge_alert (id : Z) (als : list Alert)
  : option (list Alert * Alert) :=
  match find (fun a => alert_id a =? id) als with
  | Some a => Some (map (acknowledge_by_id id) als, acknowledge a)
  | None => None
  end.

(** Modelled from the spec: what happens to the alert table over time:
    qualifying crossings reported by the comparator and acknowledgements by
    operators. *)
Inductive Event :=
  | Crossed (now : Z) (c : Crossing) (dispatched : bool)
  | Acked (id : Z).

(** Modelled from the spec: the effect of one event on the alert table; an
    acknowledgement of an id that names no alert changes nothing. *)
Definition step (cfg : Config) (als : list Alert) (ev : Event) : list Alert :=
  match ev with
  | Crossed now c dispatched => on_crossing cfg now dispatched c als
  | Acked id =>
      match acknowledge_alert id als with
      | Some (als', _) => als'
      | None => als
      end
  end.

(** Modelled from the spec: the alert table after a sequence of events. *)
Definition run (cfg : Config) (evs : list Event) (als : list Alert) : list Alert :=
  fold_left (step cfg) evs als.

(** Modelled from the spec: the operator's acknowledgements among the
    events. *)
Definition is_ack (ev : Event) : bool :=
  match ev with
  | Acked _ => true
  | Crossed _ _ _ => false
  end.

(** Modelled from the spec: the deduplication guarantee as a property of the
    alert table: alerts of one pair lie at least a cooldown period apart, in
    the order of their creation. *)
Definition spaced (cfg : Config) (als : list Alert) : Prop :=
  ForallOrdPairs
    (fun a a' =>
       same_pair (book a) (competing_source a) a' = true ->
       triggered_at a + cooldown cfg <= triggered_at a')
    als.

(** Modelled from the spec: the alerts of a pair, and those in [sent] state
    triggered in the window of one cooldown period starting at [w]. *)
Definition alerts_of (b s : string) (als : list Alert) : list Alert :=
  List.filter (same_pair b s) als.

Definition is_sent (a : Alert) : bool :=
  match status a with
  | Sent => true
  | _ => false
  end.

Definition in_window (cfg : Config) (w : Z) (a : Alert) : bool :=
  (w <=? triggered_at a) && (triggered_at a <? w + cooldown cfg).

Definition sent_in_window (cfg : Config) (w : Z) (b s : string)
    (als : list Alert) : list Alert :=
  List.filter (fun a => same_pair b s a && is_sent a && in_window cfg w a) als.

(** Modelled from the spec: the comparator's crossings of one cycle handed
    to the alert manager, each with the outcome of its dispatch. *)
Definition compare_and_alert (cfg : Config) (now : Z) (dispatch : Crossing -> bool)
    (st : Store) : list Alert :=
  fold_left (fun als c => on_crossing cfg now (dispatch c) c als)
            (comparator cfg now st) (alerts st).

(** Modelled from the spec: the query service in front of the alert table
    (section 6): every GET is a read; the POST to an alert's acknowledge path
    acknowledges that alert. *)
Definition serve (r : Frontend.Request) (als : list Alert) : list Alert :=
  match Frontend.method r with
  | Frontend.GET => als
  | Frontend.POST =>
      map (fun a =>
             if (Frontend.url r =?
                 "/api/alerts/" +:+ Js.show_int (alert_id a) +:+ "/acknowledge")%string
             then acknowledge a else a)
          als
  end.

(** *** Catalog Synchronizer (section 4.3) *)

(** Modelled from the spec: "the tracked price differs from the stored
    value (including null to value or value to null transitions)". *)
Definition price_eqb (p q : option Q) : bool :=
  match p, q with
  | Some x, Some y => Qeq_bool x y
  | None, None => true
  | _, _ => false
  end.

(** Modelled from the spec: the comparison of one non-price field. *)
Definition text_eqb (x y : option string) : bool :=
  match x, y with
  | Some a, Some b => (a =? b)%string
  | None, None => true
  | _, _ => false
  end.

(** Modelled from the spec: "only non-price fields differ", field by
    field. *)
Definition details_eqb (b r : Book) : bool :=
  text_eqb (title b) (title r) && text_eqb (author b) (author r) &&
  text_eqb (url b) (url r) && text_eqb (last_updated b) (last_updated r).

(** Modelled from the spec: the counts of rows inserted and updated that a
    cycle reports in its SyncHistory row. *)
Record SyncCounts := {
  inserted : Z;
  updated : Z;
}.

(** Modelled from the spec: reconciling one validated record: an unknown ISBN
    inserts the Book and a tracked-price observation; a changed price updates
    the Book and appends an observation; a change of other fields only
    updates the Book; an unchanged record is a no-op and not counted. *)
Definition sync_record (now : Z) (acc : Store * SyncCounts) (r : Book)
  : Store * SyncCounts :=
  let '(st, n) := acc in
  let observation :=
    {| ph_book := isbn r; ph_source := tracked_source;
       ph_price := price r; observed_at := now |} in
  let with_book (history : list PriceHistory) :=
    {| books := <[isbn r := r]> (books st);
       price_history := history;
       alerts := alerts st;
       sync_history := sync_history st;
       last_fingerprint := last_fingerprint st |} in
  match books st !! isbn r with
  | None =>
      (with_book (price_history st ++ [observation]),
       {| inserted := inserted n + 1; updated := updated n |})
  | Some b =>
      if negb (price_eqb (price b) (price r)) then
        (with_book (price_history st ++ [observation]),
         {| inserted := inserted n; updated := updated n + 1 |})
      else if negb (details_eqb b r) then
        (with_book (price_history st),
         {| inserted := inserted n; updated := updated n + 1 |})
      else (st, n)
  end.

(** Modelled from the spec: the synchronizer: every record in feed order,
    then one SyncHistory row with the counts of the cycle. *)
Definition synchronize (feed_name : string) (now : Z) (records : list Book)
    (st : Store) : Store * SyncCounts :=
  let '(st', n) :=
    fold_left (sync_record now) records (st, {| inserted := 0; updated := 0 |}) in
  ({| books := books st';
      price_history := price_history st';
      alerts := alerts st';
      sync_history :=
        sync_history st' ++
        [{| filename := feed_name; processed_at := now;
            rows_processed := Z.of_nat (length records);
            rows_inserted := inserted n; rows_updated := updated n |}];
      last_fingerprint := last_fingerprint st' |}, n).

(** *** Metadata Enricher (section 4.4) *)

(** Modelled from the spec: the answer of one metadata provider for one ISBN,
    after its retries: a partial record, not found, or an error. *)
Inductive ProviderAnswer :=
  | Found (author_found url_found : option string)
  | NotFound
  | ProviderError.

(** Modelled from the spec: a "usable field", and a "non-empty field" of a
    book: present and not the empty text. *)
Definition usable (x : option string) : bool :=
  match x with
  | Some s => negb (s =? "")%string
  | None => false
  end.

(** Modelled from the spec: providers in priority order; "the first provider
    returning a usable field wins"; the others are skipped. *)
Fixpoint first_usable (field : ProviderAnswer -> option string)
    (answers : list ProviderAnswer) : option string :=
  match answers with
  | [] => None
  | a :: rest => if usable (field a) then field a else first_usable field rest
  end.

(** Modelled from the spec: the author and the URL of a provider's partial
    record. *)
Definition answer_author (a : ProviderAnswer) : option string :=
  match a with
  | Found x _ => x
  | _ => None
  end.

Definition answer_url (a : ProviderAnswer) : option string :=
  match a with
  | Found _ x => x
  | _ => None
  end.

(** Modelled from the spec: enrichment fills a missing author or URL, never
    overwrites a non-empty field, never touches the price, and leaves the
    book unchanged when no provider has the data. *)
Definition enrich_book (providers : list (string -> ProviderAnswer)) (b : Book)
  : Book :=
  let answers := map (fun lookup => lookup (isbn b)) providers in
  let fill (current : option string) (field : ProviderAnswer -> option string) :=
    if usable current then current
    else match first_usable field answers with
         | Some x => Some x
         | None => current
         end in
  {| isbn := isbn b;
     title := title b;
     author := fill (author b) answer_author;
     price := price b;
     url := fill (url b) answer_url;
     last_updated := last_updated b |}.

(** *** Feed Watcher and the cycle (sections 4.1 and 5) *)

(** Modelled from the spec: what one tick of the scheduler meets: the feed's
    bytes (none when the feed is unreadable), the clock, whether the store
    fails the cycle's transaction, the metadata providers and the outcome of
    each notification dispatch. *)
Record Tick := {
  feed : option string;
  feed_name : string;
  now : Z;
  store_fails : bool;
  providers : list (string -> ProviderAnswer);
  dispatch : Crossing -> bool;
}.

(** Modelled from the spec: how a cycle ends. *)
Inductive Outcome :=
  | FeedUnreadable
  | Unchanged
  | Aborted
  | Synced (n : SyncCounts).

(** Modelled from the spec: the rows inserted and updated by a cycle; a
    cycle that did not synchronize inserted and updated none. *)
Definition outcome_counts (o : Outcome) : SyncCounts :=
  match o with
  | Synced n => n
  | _ => {| inserted := 0; updated := 0 |}
  end.

Section Cycle.

(** Modelled from the spec: the content fingerprint, "a cryptographic hash
    over the full byte content" (section 4.1). *)
Variable fingerprint : string -> string.

(** Modelled from the spec: the Feed Parser/Validator (section 4.2), a pure
    function from the raw content to the validated records; the row
    defects it reports are not used by the later stages. *)
Variable parse : string -> list Book.

(** Modelled from the spec: the stages after the Watcher accepted a changed
    feed: Parser, Synchronizer, Enricher, Comparator, Alert Manager, then
    the commit of the new fingerprint. A store failure aborts the cycle
    with nothing committed. *)
Definition process (cfg : Config) (t : Tick) (content : string) (st : Store)
  : Store * Outcome :=
  if store_fails t then (st, Aborted) else
  let '(st1, n) := synchronize (feed_name t) (now t) (parse content) st in
  let st2 :=
    {| books := enrich_book (providers t) <$> books st1;
       price_history := price_history st1;
       alerts := alerts st1; sync_history := sync_history st1;
       last_fingerprint := last_fingerprint st1 |} in
  ({| books := books st2; price_history := price_history st2;
      alerts := compare_and_alert cfg (now t) (dispatch t) st2;
      sync_history := sync_history st2;
      last_fingerprint := Some (fingerprint content) |}, Synced n).

(** Modelled from the spec: one tick of the Watcher. An unreadable feed
    skips the cycle; a fingerprint equal to the last accepted one ends it
    with no further action; a changed one, or none accepted yet, starts
    the stages. *)
Definition run_cycle (cfg : Config) (t : Tick) (st : Store) : Store * Outcome :=
  match feed t with
  | None => (st, FeedUnreadable)
  | Some content =>
      match last_fingerprint st with
      | Some accepted =>
          if (fingerprint content =? accepted)%string then (st, Unchanged)
          else process cfg t content st
      | None => process cfg t content st
      end
  end.

End Cycle.

(** Modelled from the spec: a cycle that ran to its end: it synchronized,
    or it found the feed unchanged; a skipped or aborted one is retried at
    the next tick. *)
Definition completed (o : Outcome) : bool :=
  match o with
  | Synced _ | Unchanged => true
  | FeedUnreadable | Aborted => false
  end.

(** *** The scenarios of section 8 *)

Definition effective_python (tracked : option Q) : Book :=
  {| isbn := "9780134685991"; title := Some "Effective Python"%string;
     author := None; price := tracked; url := None; last_updated := None |}.

Definition observed (source : string) (amount : Q) (at_time : Z) : PriceHistory :=
  {| ph_book := "9780134685991"; ph_source := source;
     ph_price := Some amount; observed_at := at_time |}.

(** A catalog of one book with a tracked price and one third-party
    observation of it. *)
Definition catalog (tracked third_party : Q) : Store :=
  {| books := {[ "9780134685991"%string := effective_python (Some tracked) ]};
     price_history := [observed tracked_source tracked 0;
                       observed "amazon" third_party 10];
     alerts := [];
     sync_history := [];
     last_fingerprint := None |}.

Definition ten_percent : Config :=
  {| threshold := {| threshold_type := Percentage; threshold_value := 10 |};
     cooldown := 86400; recency_window := 3600 |}.

Definition five_dollars : Config :=
  {| threshold := {| threshold_type := Absolute; threshold_value := 5 |};
     cooldown := 86400; recency_window := 3600 |}.

(** A store that has seen a third-party price but no feed yet, and the tick
    that brings a feed of one row. *)
Definition before_first_feed : Store :=
  {| books := ∅;
     price_history := [observed "amazon" 21 10];
     alerts := [];
     sync_history := [];
     last_fingerprint := None |}.

Definition one_row_feed : string := "ISBN,Price 9780134685991,29.99".

Definition one_row (content : string) : list Book :=
  [effective_python (Some (2999 # 100))].

Definition tick_at (t : Z) : Tick :=
  {| feed := Some one_row_feed; feed_name := "packt_books.csv"; now := t;
     store_fails := false; providers := []; dispatch := fun _ => true |}.

(** An alert of the pair (9780134685991, amazon) in a given state. *)
Definition amazon_alert (id : Z) (st : AlertStatus) (at_time : Z) : Alert :=
  {| alert_id := id; book := "9780134685991";
     alert_threshold := threshold ten_percent;
     tracked_price := 30; competing_price := 26;
     competing_source := "amazon"; triggered_at := at_time; status := st |}.

Definition amazon_crossing : Crossing :=
  {| c_book := "9780134685991"; c_source := "amazon";
     c_tracked := 30; c_third_party := 26 |}.

End Pipeline.

(** * Properties *)

Import Js.

(** ** Strings and decimal digits *)

Section StringFacts.

Lemma append_nil (s : string) : "" +:+ s = s.
Proof. reflexivity. Qed.

Lemma append_cons (c : ascii) (s t : string) :
  String c s +:+ t = String c (s +:+ t).
Proof. reflexivity. Qed.

Lemma append_empty_r (s : string) : s +:+ "" = s.
Proof.
  induction s as [|c s IH]; [reflexivity |].
  now rewrite append_cons, IH.
Qed.

Lemma append_assoc (a b c : string) : (a +:+ b) +:+ c = a +:+ (b +:+ c).
Proof.
  induction a as [|x a IH]; [reflexivity |].
  now rewrite !append_cons, IH.
Qed.

Lemma length_append (a b : string) :
  String.length (a +:+ b) = (String.length a + String.length b)%nat.
Proof.
  induction a as [|x a IH]; [reflexivity |].
  rewrite append_cons. simpl. now rewrite IH.
Qed.

Lemma substring_all (s : string) : substring 0 (String.length s) s = s.
Proof. induction s as [|c s IH]; simpl; [reflexivity | now rewrite IH]. Qed.

Lemma substring_prefix (a b : string) :
  substring 0 (String.length a) (a +:+ b) = a.
Proof.
  induction a as [|x a IH].
  - rewrite append_nil. now destruct b.
  - rewrite append_cons. simpl. now rewrite IH.
Qed.

Lemma substring_suffix (a b : string) :
  substring (String.length a) (String.length b) (a +:+ b) = b.
Proof.
  induction a as [|x a IH]; [apply substring_all |].
  rewrite append_cons. exact IH.
Qed.

End StringFacts.

Section DecimalFacts.

Lemma decimal_fuel_acc (fuel : nat) (n : Z) (acc : string) :
  decimal_fuel fuel n acc = decimal_fuel fuel n "" +:+ acc.
Proof.
  revert n acc. induction fuel as [|fuel IH]; intros n acc; simpl.
  - reflexivity.
  - destruct (n <? 10); [reflexivity |].
    rewrite IH, (IH _ (String _ "")), append_assoc. reflexivity.
Qed.

Lemma decimal_fuel_enough (f1 f2 : nat) (n : Z) (acc : string) :
  0 <= n -> n < 2 ^ Z.of_nat f1 -> n < 2 ^ Z.of_nat f2 ->
  (0 < f1)%nat -> (0 < f2)%nat ->
  decimal_fuel f1 n acc = decimal_fuel f2 n acc.
Proof.
  revert f2 n acc. induction f1 as [|f1 IH]; intros f2 n acc Hn H1 H2 P1 P2.
  - lia.
  - destruct f2 as [|f2]; [lia |]. simpl.
    destruct (Z.ltb_spec n 10) as [|Hge]; [reflexivity |].
    assert (Hdiv : 0 <= n / 10 < n / 2 + 1).
    { split; [apply Z.div_pos; lia |].
      assert (n / 10 <= n / 2) by (apply Z.div_le_compat_l; lia). lia. }
    assert (Hhalf : forall f : nat, n < 2 ^ Z.of_nat (S f) -> n / 10 < 2 ^ Z.of_nat f /\ (0 < f)%nat).
    { intros f Hf. rewrite Nat2Z.inj_succ, Z.pow_succ_r in Hf by lia.
      split.
      - assert (n / 2 < 2 ^ Z.of_nat f) by (apply Z.div_lt_upper_bound; lia). lia.
      - destruct f; [simpl in Hf; lia | lia]. }
    destruct (Hhalf f1 H1), (Hhalf f2 H2).
    apply IH; lia.
Qed.

Lemma decimal_fuel_log2 (n : Z) :
  0 <= n -> n < 2 ^ Z.of_nat (S (Z.to_nat (Z.log2 n))).
Proof.
  intros Hn. rewrite Nat2Z.inj_succ, Z2Nat.id by apply Z.log2_nonneg.
  destruct (Z.eq_dec n 0) as [-> | Hne]; [reflexivity |].
  apply Z.log2_spec. lia.
Qed.

Lemma decimal_digit (n : Z) :
  0 <= n < 10 -> decimal n = String (digit_char n) "".
Proof.
  intros [H0 H10]. unfold decimal. simpl.
  destruct (Z.ltb_spec n 10); [| lia].
  now rewrite Z.mod_small by lia.
Qed.

Lemma decimal_step (n : Z) :
  10 <= n -> decimal n = decimal (n / 10) +:+ String (digit_char (n mod 10)) "".
Proof.
  intros Hn. unfold decimal at 1. simpl.
  destruct (Z.ltb_spec n 10); [lia |].
  rewrite decimal_fuel_acc. f_equal. unfold decimal.
  assert (0 <= n / 10) by (apply Z.div_pos; lia).
  assert (n / 10 < n) by (apply Z.div_lt; lia).
  assert (0 < Z.log2 n) by (apply Z.log2_pos; lia).
  apply decimal_fuel_enough; try lia.
  - pose proof (decimal_fuel_log2 n ltac:(lia)) as Hb.
    rewrite Nat2Z.inj_succ, Z.pow_succ_r in Hb by lia.
    assert (n / 10 <= n / 2) by (apply Z.div_le_compat_l; lia).
    assert (n / 2 < 2 ^ Z.of_nat (Z.to_nat (Z.log2 n)))
      by (apply Z.div_lt_upper_bound; lia).
    lia.
  - apply decimal_fuel_log2; lia.
Qed.

Lemma decimal_nonempty (n : Z) : (0 < String.length (decimal n))%nat.
Proof.
  unfold decimal. simpl. destruct (n <? 10); [simpl; lia |].
  rewrite decimal_fuel_acc, length_append. simpl. lia.
Qed.

(** [toFixed]'s digit layout with two fraction digits: the integer part,
    a point, and the tens and units of the hundredths. *)
Lemma fixed_digits_two (n : Z) :
  0 <= n ->
  fixed_digits 2 n =
  decimal (n / 100) +:+ "." +:+
  String (digit_char ((n / 10) mod 10)) (String (digit_char (n mod 10)) "").
Proof.
  intros Hn. unfold fixed_digits.
  change (2 =? 0)%nat with false. cbv iota.
  destruct (Z.ltb_spec n 10) as [H10 | H10].
  - rewrite decimal_digit by lia.
    rewrite (Z.div_small n 100), (Z.div_small n 10), (Z.mod_small n 10) by lia.
    reflexivity.
  - rewrite (decimal_step n) by lia.
    assert (Hq : 0 < n / 10) by (apply Z.div_str_pos; lia).
    destruct (Z.ltb_spec (n / 10) 10) as [H100 | H100].
    + rewrite (decimal_digit (n / 10)) by lia.
      assert (n / 100 = 0) as ->.
      { change 100 with (10 * 10). rewrite <- Z.div_div by lia.
        apply Z.div_small; lia. }
      rewrite (Z.mod_small (n / 10) 10) by lia.
      reflexivity.
    + rewrite (decimal_step (n / 10)) by lia.
      rewrite Z.div_div by lia. change (10 * 10) with 100.
      set (a := decimal (n / 100)).
      set (d1 := digit_char ((n / 10) mod 10)).
      set (d0 := digit_char (n mod 10)).
      rewrite append_assoc.
      change (String d1 "" +:+ String d0 "") with (String d1 (String d0 "")).
      set (b := String d1 (String d0 "")).
      rewrite length_append. change (String.length b) with 2%nat.
      destruct (Nat.leb_spec (String.length a + 2) 2) as [Hl | Hl].
      * pose proof (decimal_nonempty (n / 100)). fold a in H. lia.
      * rewrite length_append. change (String.length b) with 2%nat.
        replace (String.length a + 2 - 2)%nat with (String.length a) by lia.
        rewrite substring_prefix.
        change 2%nat with (String.length b) at 1.
        rewrite substring_suffix. reflexivity.
Qed.

End DecimalFacts.

(** ** The formatters *)

Import Frontend.

Section FormatterFacts.

Lemma is_digit_digit_char (d : Z) : 0 <= d < 10 -> is_digit (digit_char d) = true.
Proof.
  intros Hd.
  assert (d = 0 \/ d = 1 \/ d = 2 \/ d = 3 \/ d = 4 \/ d = 5 \/ d = 6 \/ d = 7 \/
          d = 8 \/ d = 9) as Hcases by lia.
  repeat (destruct Hcases as [-> | Hcases]; [reflexivity |]).
  subst d. reflexivity.
Qed.

Lemma all_digits_append (a b : string) :
  all_digits (a +:+ b) = all_digits a && all_digits b.
Proof.
  induction a as [|c a IH]; [reflexivity |].
  rewrite append_cons. simpl. now rewrite IH, andb_assoc.
Qed.

Lemma all_digits_decimal_fuel (fuel : nat) (n : Z) :
  0 <= n -> all_digits (decimal_fuel fuel n "") = true.
Proof.
  revert n. induction fuel as [|fuel IH]; intros n Hn; [reflexivity |].
  assert (Hd : is_digit (digit_char (n mod 10)) = true)
    by (apply is_digit_digit_char, Z.mod_pos_bound; lia).
  change (decimal_fuel (S fuel) n "") with
    (if n <? 10 then String (digit_char (n mod 10)) ""
     else decimal_fuel fuel (n / 10) (String (digit_char (n mod 10)) "")).
  destruct (n <? 10).
  - cbn [all_digits]. now rewrite Hd.
  - rewrite decimal_fuel_acc, all_digits_append, IH by (apply Z.div_pos; lia).
    cbn [all_digits]. now rewrite Hd.
Qed.

Lemma all_digits_decimal (n : Z) : 0 <= n -> all_digits (decimal n) = true.
Proof. apply all_digits_decimal_fuel. Qed.

Lemma rev_app_append (a b acc : string) :
  String.rev_app (a +:+ b) acc = String.rev_app b (String.rev_app a acc).
Proof.
  revert acc. induction a as [|c a IH]; intros acc; [reflexivity |].
  rewrite append_cons. cbn [String.rev_app]. apply IH.
Qed.

Lemma all_digits_rev_app (a acc : string) :
  all_digits (String.rev_app a acc) = all_digits a && all_digits acc.
Proof.
  revert acc. induction a as [|c a IH]; intros acc; [reflexivity |].
  cbn [String.rev_app all_digits]. rewrite IH. cbn [all_digits].
  now destruct (is_digit c), (all_digits a).
Qed.

Lemma length_rev_app (a acc : string) :
  String.length (String.rev_app a acc) = (String.length a + String.length acc)%nat.
Proof.
  revert acc. induction a as [|c a IH]; intros acc; [reflexivity |].
  cbn [String.rev_app]. rewrite IH. simpl. lia.
Qed.

(** An amount laid out by [two_decimals] has the two-decimal shape. *)
Lemma two_decimal_places_two_decimals (negative : bool) (n : Z) :
  0 <= n -> two_decimal_places ("$" +:+ two_decimals negative n) = true.
Proof.
  intros Hn. unfold two_decimals.
  set (q := decimal (n / 100)).
  set (d1 := digit_char ((n / 10) mod 10)).
  set (d0 := digit_char (n mod 10)).
  assert (Hq : all_digits q = true) by (apply all_digits_decimal, Z.div_pos; lia).
  assert (Hlen : (0 < String.length q)%nat) by apply decimal_nonempty.
  assert (H1 : is_digit d1 = true)
    by (apply is_digit_digit_char, Z.mod_pos_bound; lia).
  assert (H0 : is_digit d0 = true)
    by (apply is_digit_digit_char, Z.mod_pos_bound; lia).
  set (body := q +:+ "." +:+ String d1 (String d0 "")).
  assert (Hstrip : strip_minus ((if negative then "-" else "") +:+ body) = body).
  { destruct negative; [reflexivity |]. rewrite append_nil.
    unfold body. destruct q as [|c q']; [simpl in Hlen; lia |].
    rewrite append_cons. cbn [strip_minus].
    cbn [all_digits] in Hq. apply andb_prop in Hq as [Hc _].
    destruct (Ascii.eqb_spec c "-") as [-> | _]; [discriminate | reflexivity]. }
  rewrite append_cons, append_nil. cbn [two_decimal_places].
  rewrite Hstrip. unfold body, String.rev. rewrite rev_app_append.
  change ("." +:+ String d1 (String d0 ""))
    with (String "." (String d1 (String d0 ""))).
  cbn [String.rev_app].
  pose proof (all_digits_rev_app q "") as Hd.
  pose proof (length_rev_app q "") as Hl.
  destruct (String.rev_app q "") as [|c rest]; [simpl in Hl; lia |].
  rewrite H0, H1. rewrite Hq in Hd. cbn [all_digits andb] in Hd.
  rewrite !Ascii.eqb_refl. cbn [andb]. exact Hd.
Qed.

Lemma magnitude_pos (m : positive) (e : Z) :
  0 < fst (magnitude m e) /\ 0 < snd (magnitude m e).
Proof.
  unfold magnitude. destruct (Z.leb_spec 0 e); simpl.
  - split; [| lia]. apply Z.mul_pos_pos; [lia | apply Z.pow_pos_nonneg; lia].
  - split; [lia | apply Z.pow_pos_nonneg; lia].
Qed.

Lemma nearest_scaled_two (m : positive) (e : Z) :
  let n := nearest_scaled 2 m e in
  0 <= n /\
  2 * n * snd (magnitude m e) - snd (magnitude m e)
    <= 200 * fst (magnitude m e)
    < 2 * n * snd (magnitude m e) + snd (magnitude m e).
Proof.
  unfold nearest_scaled. destruct (magnitude_pos m e) as [Hnum Hden].
  destruct (magnitude m e) as [num den]. simpl in *.
  change (10 ^ Z.of_nat 2) with 100.
  pose proof (Z.div_mod (2 * num * 100 + den) (2 * den) ltac:(lia)) as Hdm.
  pose proof (Z.mod_pos_bound (2 * num * 100 + den) (2 * den) ltac:(lia)) as Hb.
  assert (0 <= (2 * num * 100 + den) / (2 * den)) by (apply Z.div_pos; lia).
  nia.
Qed.

(** [toFixed(2)] on a number of the fixed range: the sign, then the nearest
    count of hundredths with two decimal places. *)
Lemma toFixed_two (p : number) :
  fixed_range p = true ->
  exists n, 0 <= n /\ nearest_hundredths p n /\
            toFixed p 2 = two_decimals (is_negative p) n.
Proof.
  unfold fixed_range, nearest_hundredths, abs_fraction, is_negative, toFixed.
  destruct (Prim2SF p) as [s | s | | s m e]; try discriminate; intros Hr.
  - exists 0. split; [lia |]. split; [lia |].
    now rewrite fixed_digits_two by lia.
  - apply negb_true_iff in Hr. rewrite Hr.
    destruct (nearest_scaled_two m e) as [Hn Hnear].
    exists (nearest_scaled 2 m e). split; [exact Hn |]. split.
    + destruct (magnitude m e) as [num den]. exact Hnear.
    + now rewrite fixed_digits_two by exact Hn.
Qed.

End FormatterFacts.

(** C9 (as amended). [formatPrice] returns ["N/A"] exactly when its input is
    [null] or [undefined]. For every finite number [p] of magnitude below
    [10^21] it returns ["$"] followed by [p] with exactly two decimal places:
    a minus sign when [p] is negative, then the integer nearest to
    [100 * |p|] (the larger one on a tie) written as hundredths. Outside that
    range [toFixed] answers with the number's default string, as
    [formatPrice_not_two_decimals] shows. *)
Theorem formatPrice_two_decimals :
  (forall price : maybe number,
      formatPrice price = "N/A" <-> price = null \/ price = undefined) /\
  (forall p : number,
      fixed_range p = true ->
      exists n, 0 <= n /\ nearest_hundredths p n /\
                formatPrice (value p) = "$" +:+ two_decimals (is_negative p) n /\
                two_decimal_places (formatPrice (value p)) = true).
Proof.
  split.
  - intros [| | p]; simpl.
    + split; auto.
    + split; auto.
    + rewrite append_cons. split; [discriminate | intros [|]; discriminate].
  - intros p Hp. destruct (toFixed_two p Hp) as (n & Hn & Hnear & Hfix).
    exists n. unfold formatPrice. rewrite Hfix.
    repeat split; try assumption; try apply Hnear.
    now apply two_decimal_places_two_decimals.
Qed.

Lemma formatPrice_two_decimals_witness :
  exists n, 0 <= n /\ nearest_hundredths 29.99%float n /\
            formatPrice (value 29.99%float)
            = "$" +:+ two_decimals (is_negative 29.99%float) n /\
            two_decimal_places (formatPrice (value 29.99%float)) = true.
Proof. apply (proj2 formatPrice_two_decimals). vm_compute. reflexivity. Defined.

(** C9 as stated fails: [NaN], [Infinity] and [1e21] are numbers, and what
    [formatPrice] returns for them has no two decimal places. *)
Lemma formatPrice_not_two_decimals :
  formatPrice (value nan) = "$NaN" /\
  two_decimal_places (formatPrice (value nan)) = false /\
  formatPrice (value infinity) = "$Infinity" /\
  two_decimal_places (formatPrice (value infinity)) = false /\
  formatPrice (value 1e21%float) = "$1e+21" /\
  two_decimal_places (formatPrice (value 1e21%float)) = false.
Proof. vm_compute. repeat split. Qed.

Example formatPrice_examples :
  formatPrice (value 29.99%float) = "$29.99" /\
  formatPrice (value 0%float) = "$0.00" /\
  formatPrice (value (-4)%float) = "$-4.00" /\
  formatPrice (value 1.005%float) = "$1.00" /\
  formatPrice (value 0.125%float) = "$0.13" /\
  formatPrice null = "N/A" /\ formatPrice undefined = "N/A".
Proof. vm_compute. repeat split. Qed.

(** ** The alert cards *)

(** C4. For every alert, the Savings cell of the alerts page and the Save
    text of the dashboard show [formatPrice] of the alert's tracked (Packt)
    price minus its third-party price; the value depends on nothing but
    these two recorded prices. *)
Theorem savings_is_price_difference (alert : Alert.t) :
  AlertCard.savings (alert_card alert)
  = formatPrice (value (Alert.packt_price alert - Alert.third_party_price alert)%float) /\
  RecentAlert.save (recent_alert alert)
  = "Save: " +:+
    formatPrice (value (Alert.packt_price alert - Alert.third_party_price alert)%float) /\
  (forall other : Alert.t,
      Alert.packt_price other = Alert.packt_price alert ->
      Alert.third_party_price other = Alert.third_party_price alert ->
      AlertCard.savings (alert_card other) = AlertCard.savings (alert_card alert) /\
      RecentAlert.save (recent_alert other) = RecentAlert.save (recent_alert alert)).
Proof.
  split; [reflexivity |]. split; [reflexivity |].
  intros other Hp Ht. unfold alert_card, recent_alert. simpl.
  now rewrite Hp, Ht.
Qed.

Lemma savings_is_price_difference_witness :
  let sent :=
    {| Alert.id := 1; Alert.book_id := 7; Alert.book := undefined;
       Alert.threshold_type := "absolute"; Alert.threshold_value := 5%float;
       Alert.packt_price := 29.99%float; Alert.third_party_price := 21%float;
       Alert.third_party_source := "amazon";
       Alert.notified_at := "2024-01-15T10:00:00"; Alert.status := "sent" |} in
  let acknowledged :=
    {| Alert.id := 2; Alert.book_id := 7; Alert.book := undefined;
       Alert.threshold_type := "percentage"; Alert.threshold_value := 10%float;
       Alert.packt_price := 29.99%float; Alert.third_party_price := 21%float;
       Alert.third_party_source := "ebay";
       Alert.notified_at := "2024-01-16T10:00:00"; Alert.status := "acknowledged" |} in
  AlertCard.savings (alert_card acknowledged) = AlertCard.savings (alert_card sent) /\
  RecentAlert.save (recent_alert acknowledged) = RecentAlert.save (recent_alert sent).
Proof.
  intros sent acknowledged.
  apply (proj2 (proj2 (savings_is_price_difference sent))); reflexivity.
Defined.

Example savings_example :
  forall alert : Alert.t,
    Alert.packt_price alert = 29.99%float ->
    Alert.third_party_price alert = 21%float ->
    AlertCard.savings (alert_card alert) = "$8.99" /\
    RecentAlert.save (recent_alert alert) = "Save: $8.99".
Proof.
  intros alert Hp Ht. unfold alert_card, recent_alert. simpl.
  rewrite Hp, Ht. vm_compute. split; reflexivity.
Qed.

(** ** The data-quality views *)

Section AttentionFacts.

Lemma missing_price_fold (books : list Book.t) (g : IssueGroups.t) :
  IssueGroups.missing_price (fold_left group_book books g)
  = IssueGroups.missing_price g ++ List.filter price_missing books.
Proof.
  revert g. induction books as [|b books IH]; intros g; simpl.
  - now rewrite app_nil_r.
  - rewrite IH. unfold group_book at 1, price_missing at 2. simpl.
    destruct (negb (truthy_number (Book.packt_price b))); simpl.
    + now rewrite <- app_assoc.
    + reflexivity.
Qed.

Lemma getAttentionIssues_price (book : Book.t) :
  price_missing book = true -> In "Missing Price"%string (getAttentionIssues book).
Proof.
  unfold price_missing, getAttentionIssues. intros ->.
  apply in_or_app. right. now left.
Qed.

End AttentionFacts.

(** C10. Both data-quality views raise the missing-price flag for a book
    whose tracked price is [null], [undefined] or [0]: the Books page lists
    'Missing Price' among its issues and the dashboard puts it in the
    missing-price group; in the attention list a price of zero cannot be told
    from an absent one. *)
Theorem zero_price_is_missing_price (book : Book.t) :
  Book.packt_price book = null \/ Book.packt_price book = undefined \/
  Book.packt_price book = value 0%float ->
  In "Missing Price"%string (getAttentionIssues book) /\
  (forall books : list Book.t,
      In book books -> In book (IssueGroups.missing_price (booksByIssue books))) /\
  getAttentionIssues book = getAttentionIssues (with_packt_price book null) /\
  getAttentionIssues book = getAttentionIssues (with_packt_price book (value 0%float)).
Proof.
  intros Hp.
  assert (Hm : price_missing book = true).
  { unfold price_missing. destruct Hp as [-> | [-> | ->]]; reflexivity. }
  split; [now apply getAttentionIssues_price |]. split.
  - intros books Hin. unfold booksByIssue. rewrite missing_price_fold. simpl.
    apply filter_In. now split.
  - unfold price_missing in Hm. unfold getAttentionIssues. simpl. rewrite Hm.
    split; reflexivity.
Qed.

Lemma zero_price_is_missing_price_witness :
  let free_book :=
    {| Book.id := 3; Book.isbn := "9781492056355";
       Book.title := value "Python Tricks"; Book.author := value "Dan Bader";
       Book.packt_price := value 0%float;
       Book.packt_url := value "https://packtpub.com/python-tricks";
       Book.last_updated := value "2024-01-15"; Book.created_at := null |} in
  getAttentionIssues free_book = ["Missing Price"%string] /\
  In "Missing Price"%string (getAttentionIssues free_book) /\
  getAttentionIssues free_book = getAttentionIssues (with_packt_price free_book null).
Proof.
  intros free_book. split; [reflexivity |].
  pose proof (zero_price_is_missing_price free_book
                (or_intror (or_intror eq_refl))) as (H1 & _ & H2 & _).
  split; [exact H1 | exact H2].
Defined.

(** ** The wire types *)

(** C8. Every Book carries a non-null ISBN, a string; its title, author,
    tracked price, source URL and last-updated timestamp are independently
    nullable: any choice of values for them, and any pattern of nulls among
    them, is the shape of some Book. *)
Theorem book_isbn_non_null_others_nullable :
  (forall b : Book.t,
      get "isbn" (Book.to_js b) = JStr (Book.isbn b) /\
      is_null (get "isbn" (Book.to_js b)) = false) /\
  (forall title author url updated : maybe string, forall price : maybe number,
      exists b : Book.t,
        get "title" (Book.to_js b) = js_of_maybe JStr title /\
        get "author" (Book.to_js b) = js_of_maybe JStr author /\
        get "packt_price" (Book.to_js b) = js_of_maybe JNum price /\
        get "packt_url" (Book.to_js b) = js_of_maybe JStr url /\
        get "last_updated" (Book.to_js b) = js_of_maybe JStr updated) /\
  (forall t a p u l : bool,
      exists b : Book.t,
        is_null (get "title" (Book.to_js b)) = t /\
        is_null (get "author" (Book.to_js b)) = a /\
        is_null (get "packt_price" (Book.to_js b)) = p /\
        is_null (get "packt_url" (Book.to_js b)) = u /\
        is_null (get "last_updated" (Book.to_js b)) = l /\
        is_null (get "isbn" (Book.to_js b)) = false).
Proof.
  split; [intros b; split; reflexivity |]. split.
  - intros title author url updated price.
    exists {| Book.id := 1; Book.isbn := "9780134685991"; Book.title := title;
              Book.author := author; Book.packt_price := price;
              Book.packt_url := url; Book.last_updated := updated;
              Book.created_at := null |}.
    repeat split.
  - intros t a p u l.
    exists {| Book.id := 1; Book.isbn := "9780134685991";
              Book.title := if t then null else value "Effective Python";
              Book.author := if a then null else value "Brett Slatkin";
              Book.packt_price := if p then null else value 29.99%float;
              Book.packt_url := if u then null else value "https://packtpub.com/";
              Book.last_updated := if l then null else value "2024-01-15";
              Book.created_at := null |}.
    destruct t, a, p, u, l; repeat split.
Qed.

(** C2 as stated fails: the sync-history listing carries neither page nor
    limit nor total pages, and the price-history listing is a bare array. *)
Lemma sync_history_listing_not_paginated :
  let d := {| SyncHistoryListResponse.history := [];
              SyncHistoryListResponse.total := 0 |} in
  has_key "page" (response_js ListSyncHistory d) = false /\
  has_key "limit" (response_js ListSyncHistory d) = false /\
  has_key "total_pages" (response_js ListSyncHistory d) = false /\
  is_paginated (response_js ListSyncHistory d) = false /\
  is_paginated (response_js ListPriceHistory []) = false.
Proof. vm_compute. repeat split. Qed.

(** C2 (as amended). The book listing and the two alert listings return the
    five-tuple (items, total count, page, limit, total pages); the
    price-history listing by book returns the bare list of items, and the
    sync-history listing returns the items and the total count only. *)
Theorem list_endpoint_shapes :
  (forall (e : ListEndpoint) (d : response_data e),
      is_paginated (response_js e d) = paginated e) /\
  (forall d, five_tuple "books" (response_js ListBooks d) = true) /\
  (forall d, five_tuple "alerts" (response_js ListAlerts d) = true) /\
  (forall d, five_tuple "alerts" (response_js ListActiveAlerts d) = true) /\
  (forall d, response_js ListPriceHistory d = JArr (map PriceHistory.to_js d)) /\
  (forall d, keys (response_js ListSyncHistory d) = ["history"; "total"]%string).
Proof.
  split; [intros [] d; reflexivity |].
  repeat split.
Qed.

(** ** Reads and writes of the client *)

Section ReadsAndWrites.

(** The backend the client talks to: any handler that treats GET as a read. *)
Variable Store : Type.
Variable backend : Request -> Store -> Store.
Hypothesis get_is_a_read : forall r st, method r = GET -> backend r st = st.

(** C7. Of all operations of the API client exactly the alert acknowledge is
    issued as a POST; every other one (books, price history, alerts,
    statistics, sync status and history) is a GET and leaves the stored
    state as it was. Of the hooks, [useAcknowledgeAlert] is the one
    mutation, and the only one that can issue the POST. *)
Theorem only_acknowledge_writes :
  (forall op : Operation,
      method (issue op) = POST <-> exists alertId, op = AlertsAcknowledge alertId) /\
  (forall op : Operation,
      (forall alertId, op <> AlertsAcknowledge alertId) ->
      method (issue op) = GET /\ forall st, backend (issue op) st = st) /\
  (forall h : Hook,
      (exists f, run_hook h = useMutation f) <-> h = UseAcknowledgeAlert) /\
  (forall (h : Hook) (r : Request),
      hook_issues (run_hook h) r -> method r = POST ->
      h = UseAcknowledgeAlert /\ exists alertId, r = issue (AlertsAcknowledge alertId)).
Proof.
  assert (Hm : forall op, method (issue op) = POST <->
                          exists alertId, op = AlertsAcknowledge alertId).
  { intros op. split.
    - destruct op; try discriminate. intros _. now eexists.
    - intros [alertId ->]. reflexivity. }
  split; [exact Hm |]. split; [| split].
  - intros op Hne.
    assert (method (issue op) = GET) as Hget.
    { destruct (method (issue op)) eqn:E; [reflexivity |].
      apply Hm in E as [alertId ->]. now destruct (Hne alertId). }
    split; [exact Hget | intros st; now apply get_is_a_read].
  - intros h. split.
    + intros [f Hf]. destruct h; try discriminate. reflexivity.
    + intros ->. now eexists.
  - intros h r Hr Hpost. destruct h; simpl in Hr; try (subst r; discriminate).
    destruct Hr as [alertId ->]. split; [reflexivity | now exists alertId].
Qed.

End ReadsAndWrites.

Lemma only_acknowledge_writes_witness :
  method (issue (AlertsGet 7)) = GET /\
  forall als, Pipeline.serve (issue (AlertsGet 7)) als = als.
Proof.
  apply (only_acknowledge_writes (list Pipeline.Alert) Pipeline.serve).
  - intros r st Hr. unfold Pipeline.serve. now rewrite Hr.
  - intros alertId. discriminate.
Defined.

(** The acknowledge POST does change the alert table of the modelled query
    service. *)
Example acknowledge_is_a_write :
  Pipeline.serve (issue (AlertsAcknowledge 1)) [Pipeline.amazon_alert 1 Pipeline.Sent 0]
  = [Pipeline.amazon_alert 1 Pipeline.Acknowledged 0].
Proof. vm_compute. reflexivity. Qed.

(** ** Price Comparator *)

Section ComparatorFacts.
Import Pipeline.

Lemma threshold_met_iff (p : ThresholdPolicy) (tracked d : Q) :
  threshold_met p tracked d = true <-> threshold_reached p tracked d.
Proof.
  unfold threshold_met, threshold_reached.
  destruct (threshold_type p); apply Qle_bool_iff.
Qed.

Lemma positive_iff (d : Q) : negb (Qle_bool d 0) = true <-> (0 < d)%Q.
Proof.
  rewrite negb_true_iff. split.
  - intros H. apply Qnot_le_lt. intros Hle. apply Qle_bool_iff in Hle. congruence.
  - intros H. destruct (Qle_bool d 0) eqn:E; [| reflexivity].
    apply Qle_bool_iff in E. exfalso. exact (Qlt_not_le _ _ H E).
Qed.

(** C6. A threshold crossing occurs exactly when the delta is positive and
    the configured threshold, a percentage of the tracked price or a flat
    amount, is met or exceeded; a delta equal to the threshold counts. With
    a tracked price of $30.00 and a threshold of 10%, an observation of
    $26.00 creates an Alert (in [sent] state) and one of $27.50 creates
    none. *)
Theorem crossing_iff_positive_delta_and_threshold :
  (forall (p : ThresholdPolicy) (tracked third_party : Q),
      is_crossing p tracked third_party = true <->
      (0 < delta tracked third_party)%Q /\
      threshold_reached p tracked (delta tracked third_party)) /\
  (forall (tracked third_party v : Q),
      (0 < delta tracked third_party)%Q ->
      (delta tracked third_party == v)%Q ->
      is_crossing {| threshold_type := Absolute; threshold_value := v |}
                  tracked third_party = true) /\
  (forall (tracked third_party v : Q),
      (0 < delta tracked third_party)%Q ->
      (delta tracked third_party / tracked * 100 == v)%Q ->
      is_crossing {| threshold_type := Percentage; threshold_value := v |}
                  tracked third_party = true) /\
  (exists a,
      compare_and_alert ten_percent 20 (fun _ => true) (catalog 30 26) = [a] /\
      status a = Sent /\ book a = "9780134685991"%string /\
      competing_source a = "amazon"%string) /\
  compare_and_alert ten_percent 20 (fun _ => true) (catalog 30 (2750 # 100)) = [].
Proof.
  assert (Hiff : forall p tracked third_party,
             is_crossing p tracked third_party = true <->
             (0 < delta tracked third_party)%Q /\
             threshold_reached p tracked (delta tracked third_party)).
  { intros p tracked third_party. unfold is_crossing.
    rewrite andb_true_iff, positive_iff, threshold_met_iff. reflexivity. }
  split; [exact Hiff |]. split; [| split; [| split]].
  - intros tracked third_party v Hpos Heq. apply Hiff. split; [exact Hpos |].
    unfold threshold_reached. simpl. rewrite Heq. apply Qle_refl.
  - intros tracked third_party v Hpos Heq. apply Hiff. split; [exact Hpos |].
    unfold threshold_reached. simpl. rewrite Heq. apply Qle_refl.
  - eexists. split; [vm_compute; reflexivity |]. repeat split.
  - vm_compute. reflexivity.
Qed.

End ComparatorFacts.

Lemma crossing_iff_positive_delta_and_threshold_witness :
  Pipeline.is_crossing
    {| Pipeline.threshold_type := Pipeline.Percentage; Pipeline.threshold_value := 10 |}
    30 27 = true /\
  Pipeline.is_crossing
    {| Pipeline.threshold_type := Pipeline.Absolute; Pipeline.threshold_value := 3 |}
    30 27 = true.
Proof.
  destruct crossing_iff_positive_delta_and_threshold as (_ & Habs & Hpct & _).
  split.
  - apply Hpct; vm_compute; reflexivity.
  - apply Habs; vm_compute; reflexivity.
Defined.

(** ** Alert Manager: acknowledging *)

Section AlertFacts.
Import Pipeline.

Variable cfg : Config.

Lemma acknowledge_keeps (a : Alert) :
  alert_id (acknowledge a) = alert_id a /\
  book (acknowledge a) = book a /\
  competing_source (acknowledge a) = competing_source a /\
  triggered_at (acknowledge a) = triggered_at a.
Proof. repeat split. Qed.

Lemma acknowledge_twice (a : Alert) : acknowledge (acknowledge a) = acknowledge a.
Proof. reflexivity. Qed.

Lemma acknowledge_acknowledged (a : Alert) :
  status a = Acknowledged -> acknowledge a = a.
Proof. destruct a. unfold acknowledge. simpl. now intros ->. Qed.

Lemma acknowledge_by_id_twice (id : Z) (a : Alert) : acknowledge_by_id id (acknowledge_by_id id a) = acknowledge_by_id id a.
Proof.
  unfold acknowledge_by_id. destruct (alert_id a =? id) eqn:E.
  - simpl. now rewrite E.
  - now rewrite E.
Qed.

Lemma find_acknowledge_by_id (id : Z) (als : list Alert) :
  find (fun a => alert_id a =? id) (map (acknowledge_by_id id) als)
  = option_map acknowledge (find (fun a => alert_id a =? id) als).
Proof.
  induction als as [|a als IH]; [reflexivity |].
  cbn [map find]. destruct (alert_id a =? id) eqn:E.
  - assert (acknowledge_by_id id a = acknowledge a) as -> by (unfold acknowledge_by_id; now rewrite E).
    change (alert_id (acknowledge a)) with (alert_id a). now rewrite E.
  - assert (acknowledge_by_id id a = a) as -> by (unfold acknowledge_by_id; now rewrite E).
    now rewrite E.
Qed.

Lemma find_present (id : Z) (als : list Alert) (a : Alert) :
  In a als -> alert_id a = id ->
  exists a0, find (fun x => alert_id x =? id) als = Some a0 /\ alert_id a0 = id.
Proof.
  intros Hin Hid. destruct (find (fun x => alert_id x =? id) als) as [a0|] eqn:E.
  - exists a0. split; [reflexivity |]. apply find_some in E as [_ E].
    now apply Z.eqb_eq in E.
  - exfalso. apply (find_none _ _ E) in Hin. rewrite Hid, Z.eqb_refl in Hin.
    discriminate.
Qed.

(** C3. Acknowledging is idempotent and total: it leaves every alert in
    [acknowledged], acknowledging an acknowledged alert changes nothing, and
    for every alert of the table the action by id answers (never fails), the
    second time with the same table and the same alert as the first. The
    client issues it as the same POST each time. *)
Theorem acknowledge_idempotent_total :
  (forall a : Alert,
      status (acknowledge a) = Acknowledged /\
      acknowledge (acknowledge a) = acknowledge a /\
      (status a = Acknowledged -> acknowledge a = a)) /\
  (forall (als : list Alert) (a : Alert),
      In a als ->
      exists als' a',
        acknowledge_alert (alert_id a) als = Some (als', a') /\
        status a' = Acknowledged /\ alert_id a' = alert_id a /\
        acknowledge_alert (alert_id a) als' = Some (als', a') /\
        (status a = Acknowledged -> In a als')) /\
  (forall (id : Z) (als : list Alert),
      step cfg (step cfg als (Acked id)) (Acked id) = step cfg als (Acked id)) /\
  (forall alertId : Z,
      Frontend.method (alertsAPI.acknowledge alertId) = POST /\
      forall als, serve (alertsAPI.acknowledge alertId)
                    (serve (alertsAPI.acknowledge alertId) als)
                  = serve (alertsAPI.acknowledge alertId) als).
Proof.
  split; [| split; [| split]].
  - intros a. split; [reflexivity |]. split; [reflexivity |].
    apply acknowledge_acknowledged.
  - intros als a Hin.
    destruct (find_present (alert_id a) als a Hin eq_refl) as (a0 & Hfind & Hid).
    exists (map (acknowledge_by_id (alert_id a)) als), (acknowledge a0).
    unfold acknowledge_alert. rewrite Hfind.
    split; [reflexivity |]. split; [reflexivity |]. split; [exact Hid |]. split.
    + fold (acknowledge_by_id (alert_id a)). rewrite find_acknowledge_by_id, Hfind. simpl.
      rewrite map_map. do 2 f_equal. apply map_ext. intros x. apply acknowledge_by_id_twice.
    + intros Hs. apply in_map_iff. exists a. split; [| exact Hin].
      unfold acknowledge_by_id. rewrite Z.eqb_refl. now apply acknowledge_acknowledged.
  - intros id als. unfold step, acknowledge_alert.
    destruct (find (fun a => alert_id a =? id) als) as [a0|] eqn:E.
    + fold (acknowledge_by_id id). rewrite find_acknowledge_by_id, E. simpl.
      rewrite map_map. apply map_ext. intros x. apply acknowledge_by_id_twice.
    + now rewrite E.
  - intros alertId. split; [reflexivity |]. intros als.
    unfold serve. change (Frontend.method (alertsAPI.acknowledge alertId)) with POST.
    cbv iota. set (u := Frontend.url (alertsAPI.acknowledge alertId)).
    rewrite map_map. apply map_ext. intros a.
    destruct (u =? "/api/alerts/" +:+ show_int (alert_id a) +:+ "/acknowledge")%string
      eqn:E.
    + change (alert_id (acknowledge a)) with (alert_id a). now rewrite E.
    + now rewrite E.
Qed.

End AlertFacts.

Lemma acknowledge_idempotent_total_witness :
  let als := [Pipeline.amazon_alert 1 Pipeline.Acknowledged 0;
              Pipeline.amazon_alert 2 Pipeline.Sent 90000] in
  exists als' a',
    Pipeline.acknowledge_alert 1 als = Some (als', a') /\
    Pipeline.status a' = Pipeline.Acknowledged /\
    Pipeline.alert_id a' = 1 /\
    Pipeline.acknowledge_alert 1 als' = Some (als', a') /\
    (Pipeline.Acknowledged = Pipeline.Acknowledged ->
     In (Pipeline.amazon_alert 1 Pipeline.Acknowledged 0) als').
Proof.
  intros als.
  apply (proj1 (proj2 (acknowledge_idempotent_total Pipeline.ten_percent))
           als (Pipeline.amazon_alert 1 Pipeline.Acknowledged 0)).
  left. reflexivity.
Defined.

(** ** Alert Manager: cooldown *)

Section CooldownFacts.
Import Pipeline.

Variable cfg : Config.

Lemma same_pair_eq (b s : string) (a : Alert) :
  same_pair b s a = true <-> book a = b /\ competing_source a = s.
Proof.
  unfold same_pair. rewrite andb_true_iff, !String.eqb_eq. reflexivity.
Qed.

Lemma later_trigger_bounds (b s : string) (als : list Alert) (acc : option Z) :
  match fold_left (later_trigger b s) als acc with
  | Some t =>
      (forall a, In a als -> same_pair b s a = true -> triggered_at a <= t) /\
      (forall t0, acc = Some t0 -> t0 <= t)
  | None =>
      acc = None /\ forall a, In a als -> same_pair b s a = false
  end.
Proof.
  revert acc. induction als as [|x als IH]; intros acc.
  - simpl. destruct acc as [t|].
    + split; [intros a [] | intros t0 [= ->]; lia].
    + split; [reflexivity | intros a []].
  - cbn [fold_left]. specialize (IH (later_trigger b s acc x)).
    destruct (fold_left (later_trigger b s) als (later_trigger b s acc x)) as [t|].
    + destruct IH as [IHin IHacc]. split.
      * intros a [<- | Hin] Hp; [| now apply IHin].
        unfold later_trigger in IHacc. rewrite Hp in IHacc.
        destruct acc as [t0|]; specialize (IHacc _ eq_refl); lia.
      * intros t0 ->. unfold later_trigger in IHacc.
        destruct (same_pair b s x).
        -- specialize (IHacc _ eq_refl). lia.
        -- now apply IHacc.
    + destruct IH as [IHacc IHin]. unfold later_trigger in IHacc.
      destruct (same_pair b s x) eqn:Hp.
      * destruct acc; discriminate.
      * split; [exact IHacc |]. intros a [<- | Hin]; [exact Hp | now apply IHin].
Qed.

Lemma cooldown_over (now : Z) (b s : string) (als : list Alert) (a : Alert) :
  cooldown_active cfg now b s als = false ->
  In a als -> same_pair b s a = true ->
  triggered_at a + cooldown cfg <= now.
Proof.
  unfold cooldown_active, last_trigger. intros Hc Hin Hp.
  pose proof (later_trigger_bounds b s als None) as Hb.
  destruct (fold_left (later_trigger b s) als None) as [t|].
  - destruct Hb as [Hb _]. specialize (Hb a Hin Hp).
    apply Z.ltb_ge in Hc. lia.
  - destruct Hb as [_ Hb]. rewrite (Hb a Hin) in Hp. discriminate.
Qed.

Lemma ForallOrdPairs_snoc {A} (R : A -> A -> Prop) (l : list A) (x : A) :
  ForallOrdPairs R l -> Forall (fun a => R a x) l -> ForallOrdPairs R (l ++ [x]).
Proof.
  induction 1 as [|a l Ha Hl IH]; intros Hx; simpl.
  - constructor; constructor.
  - inversion Hx; subst. constructor.
    + apply List.Forall_app. split; [exact Ha | now constructor].
    + now apply IH.
Qed.

Lemma ForallOrdPairs_map {A} (R : A -> A -> Prop) (f : A -> A) (l : list A) :
  (forall a a', R a a' -> R (f a) (f a')) ->
  ForallOrdPairs R l -> ForallOrdPairs R (map f l).
Proof.
  intros Hf. induction 1 as [|a l Ha Hl IH]; simpl; constructor.
  - apply List.Forall_forall. intros y Hy.
    apply in_map_iff in Hy as (a' & <- & Hin).
    apply Hf. revert a' Hin. now apply List.Forall_forall.
  - exact IH.
Qed.

Lemma acknowledge_by_id_keeps (id : Z) (a : Alert) :
  book (acknowledge_by_id id a) = book a /\
  competing_source (acknowledge_by_id id a) = competing_source a /\
  triggered_at (acknowledge_by_id id a) = triggered_at a.
Proof. unfold acknowledge_by_id. destruct (alert_id a =? id); repeat split. Qed.

Lemma same_pair_acknowledge_by_id (id : Z) (b s : string) (a : Alert) :
  same_pair b s (acknowledge_by_id id a) = same_pair b s a.
Proof.
  unfold same_pair. destruct (acknowledge_by_id_keeps id a) as (-> & -> & _).
  reflexivity.
Qed.

Lemma on_crossing_spaced (now : Z) (d : bool) (c : Crossing) (als : list Alert) :
  spaced cfg als -> spaced cfg (on_crossing cfg now d c als).
Proof.
  intros Hs. unfold on_crossing.
  destruct (cooldown_active cfg now (c_book c) (c_source c) als) eqn:Hc;
    [exact Hs |].
  apply ForallOrdPairs_snoc; [exact Hs |].
  apply List.Forall_forall. intros a Hin. simpl. intros Hp.
  apply same_pair_eq in Hp as [Hb Hsrc]. simpl in Hb, Hsrc.
  apply (cooldown_over now (c_book c) (c_source c) als a Hc Hin).
  apply same_pair_eq. now split.
Qed.

Lemma step_spaced (ev : Event) (als : list Alert) :
  spaced cfg als -> spaced cfg (step cfg als ev).
Proof.
  intros Hs. destruct ev as [now c d | id]; simpl.
  - now apply on_crossing_spaced.
  - unfold acknowledge_alert.
    destruct (find (fun a => alert_id a =? id) als) as [found|]; [| exact Hs].
    apply ForallOrdPairs_map; [| exact Hs].
    intros a a' HR. rewrite same_pair_acknowledge_by_id.
    destruct (acknowledge_by_id_keeps id a) as (-> & -> & ->).
    destruct (acknowledge_by_id_keeps id a') as (_ & _ & ->). exact HR.
Qed.

Lemma run_spaced (evs : list Event) (als : list Alert) :
  spaced cfg als -> spaced cfg (run cfg evs als).
Proof.
  revert als. induction evs as [|ev evs IH]; intros als Hs; [exact Hs |].
  apply IH. now apply step_spaced.
Qed.

Lemma filter_none {A} (f : A -> bool) (l : list A) :
  (forall x, In x l -> f x = false) -> List.filter f l = [].
Proof.
  induction l as [|x l IH]; intros H; [reflexivity |]. simpl.
  rewrite (H x (or_introl eq_refl)). apply IH. intros y Hy. apply H. now right.
Qed.

Lemma spaced_one_sent_per_window (w : Z) (b s : string) (als : list Alert) :
  spaced cfg als -> (length (sent_in_window cfg w b s als) <= 1)%nat.
Proof.
  unfold spaced, sent_in_window.
  induction 1 as [|a als Ha Hl IH]; simpl; [lia |].
  destruct (same_pair b s a && is_sent a && in_window cfg w a) eqn:E; [| exact IH].
  apply andb_true_iff in E as [E Hw]. apply andb_true_iff in E as [Hp _].
  apply same_pair_eq in Hp as [Hb Hsrc].
  rewrite filter_none; [simpl; lia |].
  intros x Hx.
  destruct (same_pair b s x) eqn:Hpx; [| reflexivity].
  rewrite List.Forall_forall in Ha. specialize (Ha x Hx).
  rewrite Hb, Hsrc in Ha. specialize (Ha Hpx).
  unfold in_window in *. apply andb_true_iff in Hw as [Hw1 Hw2].
  apply Z.leb_le in Hw1. apply Z.ltb_lt in Hw2.
  destruct (is_sent x); simpl; [| reflexivity].
  apply andb_false_iff. right. apply Z.ltb_ge. lia.
Qed.

Lemma last_trigger_snoc (b s : string) (als : list Alert) (a : Alert) :
  last_trigger b s (als ++ [a]) = later_trigger b s (last_trigger b s als) a.
Proof. unfold last_trigger. now rewrite fold_left_app. Qed.

Lemma later_trigger_acknowledge_by_id (id : Z) (b s : string) (als : list Alert)
    (acc : option Z) :
  fold_left (later_trigger b s) (map (acknowledge_by_id id) als) acc
  = fold_left (later_trigger b s) als acc.
Proof.
  revert acc. induction als as [|a als IH]; intros acc; [reflexivity |].
  cbn [map fold_left]. rewrite IH. f_equal.
  unfold later_trigger. rewrite same_pair_acknowledge_by_id.
  now destruct (acknowledge_by_id_keeps id a) as (_ & _ & ->).
Qed.

Lemma alerts_of_acknowledge_by_id (id : Z) (b s : string) (als : list Alert) :
  length (alerts_of b s (map (acknowledge_by_id id) als))
  = length (alerts_of b s als).
Proof.
  unfold alerts_of. induction als as [|a als IH]; [reflexivity |].
  cbn [map List.filter]. rewrite same_pair_acknowledge_by_id.
  destruct (same_pair b s a); simpl; now rewrite IH.
Qed.

(** Acknowledgements change neither the last trigger of a pair nor the
    number of its alerts. *)
Lemma run_acks (b s : string) (acks : list Event) (als : list Alert) :
  forallb is_ack acks = true ->
  last_trigger b s (run cfg acks als) = last_trigger b s als /\
  length (alerts_of b s (run cfg acks als)) = length (alerts_of b s als).
Proof.
  revert als. induction acks as [|ev acks IH]; intros als Hacks; [now split |].
  cbn [forallb] in Hacks. apply andb_true_iff in Hacks as [Hev Hacks].
  destruct ev as [now c d | id]; [discriminate |].
  unfold run. cbn [fold_left]. fold (run cfg acks (step cfg als (Acked id))).
  destruct (IH (step cfg als (Acked id)) Hacks) as [-> ->].
  unfold step, acknowledge_alert.
  destruct (find (fun a => alert_id a =? id) als) as [found|]; [| now split].
  split.
  - apply later_trigger_acknowledge_by_id.
  - apply alerts_of_acknowledge_by_id.
Qed.

Lemma on_crossing_skipped (now : Z) (d : bool) (c : Crossing) (als : list Alert) :
  cooldown_active cfg now (c_book c) (c_source c) als = true ->
  on_crossing cfg now d c als = als.
Proof. unfold on_crossing. now intros ->. Qed.

Lemma on_crossing_created (now : Z) (d : bool) (c : Crossing) (als : list Alert) :
  cooldown_active cfg now (c_book c) (c_source c) als = false ->
  length (alerts_of (c_book c) (c_source c) (on_crossing cfg now d c als))
  = S (length (alerts_of (c_book c) (c_source c) als)) /\
  last_trigger (c_book c) (c_source c) (on_crossing cfg now d c als)
  = Some (match last_trigger (c_book c) (c_source c) als with
          | Some t => Z.max t now
          | None => now
          end).
Proof.
  intros Hc. unfold on_crossing. rewrite Hc. split.
  - unfold alerts_of. rewrite List.filter_app, length_app. cbn [List.filter].
    unfold same_pair at 2. cbn [book competing_source].
    rewrite !String.eqb_refl. simpl. lia.
  - rewrite last_trigger_snoc. unfold later_trigger, same_pair.
    cbn [book competing_source triggered_at]. rewrite !String.eqb_refl.
    cbn [andb]. now destruct (last_trigger (c_book c) (c_source c) als).
Qed.

Lemma run_app (evs1 evs2 : list Event) (als : list Alert) :
  run cfg (evs1 ++ evs2) als = run cfg evs2 (run cfg evs1 als).
Proof. unfold run. apply fold_left_app. Qed.

(** C1. For every (book, competing source) pair at most one Alert in
    [sent] state is triggered within any window of one cooldown period,
    whatever crossings and acknowledgements the alert table has seen. Two
    qualifying crossings of a pair inside the window create exactly one
    Alert, and a third one after the window has elapsed creates a second,
    whether or not alerts were acknowledged in between. *)
Theorem cooldown_deduplicates :
  (forall (evs : list Event) (w : Z) (b s : string),
      (length (sent_in_window cfg w b s (run cfg evs [])) <= 1)%nat) /\
  (forall (als : list Alert) (c1 c2 c3 : Crossing) (d1 d2 d3 : bool)
          (t1 t2 t3 : Z) (acks1 acks2 : list Event),
      let b := c_book c1 in
      let s := c_source c1 in
      c_book c2 = b -> c_source c2 = s -> c_book c3 = b -> c_source c3 = s ->
      cooldown_active cfg t1 b s als = false ->
      t1 <= t2 < t1 + cooldown cfg ->
      t1 + cooldown cfg <= t3 ->
      forallb is_ack acks1 = true -> forallb is_ack acks2 = true ->
      let after2 := run cfg (Crossed t1 c1 d1 :: acks1 ++ [Crossed t2 c2 d2]) als in
      let after3 := run cfg (acks2 ++ [Crossed t3 c3 d3]) after2 in
      length (alerts_of b s after2) = S (length (alerts_of b s als)) /\
      length (alerts_of b s after3) = S (S (length (alerts_of b s als)))).
Proof.
  split.
  - intros evs w b s. apply spaced_one_sent_per_window, run_spaced. constructor.
  - intros als c1 c2 c3 d1 d2 d3 t1 t2 t3 acks1 acks2 b s Hb2 Hs2 Hb3 Hs3
           Hidle Ht2 Ht3 Hacks1 Hacks2 after2 after3.
    (* the first crossing creates an alert and restarts the cooldown at t1 *)
    set (A1 := on_crossing cfg t1 d1 c1 als).
    destruct (on_crossing_created t1 d1 c1 als Hidle) as [Hlen1 Hlast1].
    fold b s A1 in Hlen1, Hlast1.
    assert (Hlast1' : last_trigger b s A1 = Some t1).
    { rewrite Hlast1. f_equal. unfold cooldown_active in Hidle.
      destruct (last_trigger b s als) as [t0|]; [| reflexivity].
      apply Z.ltb_ge in Hidle. lia. }
    (* acknowledgements in between change nothing of that *)
    destruct (run_acks b s acks1 A1 Hacks1) as [Hlast2 Hlen2].
    set (A1' := run cfg acks1 A1) in *.
    (* the second crossing falls into the cooldown and is skipped *)
    assert (Hskip : on_crossing cfg t2 d2 c2 A1' = A1').
    { apply on_crossing_skipped. rewrite Hb2, Hs2. unfold cooldown_active.
      rewrite Hlast2, Hlast1'. apply Z.ltb_lt. lia. }
    assert (Hafter2 : after2 = A1').
    { unfold after2. change (Crossed t1 c1 d1 :: acks1 ++ [Crossed t2 c2 d2])
        with ([Crossed t1 c1 d1] ++ acks1 ++ [Crossed t2 c2 d2]).
      rewrite !run_app. exact Hskip. }
    split; [rewrite Hafter2, Hlen2; exact Hlen1 |].
    (* the third crossing comes after the cooldown and creates a second alert *)
    destruct (run_acks b s acks2 A1' Hacks2) as [Hlast3 Hlen3].
    set (A2' := run cfg acks2 A1') in *.
    assert (Hidle3 : cooldown_active cfg t3 (c_book c3) (c_source c3) A2' = false).
    { rewrite Hb3, Hs3. unfold cooldown_active.
      rewrite Hlast3, Hlast2, Hlast1'. apply Z.ltb_ge. lia. }
    destruct (on_crossing_created t3 d3 c3 A2' Hidle3) as [Hlen4 _].
    rewrite Hb3, Hs3 in Hlen4.
    unfold after3. rewrite run_app, Hafter2. fold A2'.
    change (run cfg [Crossed t3 c3 d3] A2') with (on_crossing cfg t3 d3 c3 A2').
    rewrite Hlen4, Hlen3, Hlen2, Hlen1. reflexivity.
Qed.

End CooldownFacts.

Lemma cooldown_deduplicates_witness :
  let after2 :=
    Pipeline.run Pipeline.ten_percent
      (Pipeline.Crossed 0 Pipeline.amazon_crossing true ::
       [Pipeline.Acked 1] ++ [Pipeline.Crossed 3600 Pipeline.amazon_crossing true]) [] in
  let after3 :=
    Pipeline.run Pipeline.ten_percent
      ([] ++ [Pipeline.Crossed 86400 Pipeline.amazon_crossing false]) after2 in
  length (Pipeline.alerts_of "9780134685991" "amazon" after2) = 1%nat /\
  length (Pipeline.alerts_of "9780134685991" "amazon" after3) = 2%nat.
Proof.
  apply (proj2 (cooldown_deduplicates Pipeline.ten_percent) []
           Pipeline.amazon_crossing Pipeline.amazon_crossing Pipeline.amazon_crossing
           true true false 0 3600 86400 [Pipeline.Acked 1] []);
    try reflexivity; simpl; lia.
Defined.

(** ** Feed Watcher: idempotence of the cycle *)

Section CycleFacts.
Import Pipeline.

Variable fingerprint : string -> string.
Variable parse : string -> list Book.
Variable cfg : Config.

Lemma process_commits (t : Tick) (content : string) (st st' : Store) (n : SyncCounts) :
  process fingerprint parse cfg t content st = (st', Synced n) ->
  last_fingerprint st' = Some (fingerprint content).
Proof.
  unfold process. destruct (store_fails t); [discriminate |].
  destruct (synchronize _ _ _ st) as [st1 n1]. now intros [= <- _].
Qed.

Lemma process_outcome (t : Tick) (content : string) (st : Store) :
  snd (process fingerprint parse cfg t content st) <> Unchanged.
Proof.
  unfold process. destruct (store_fails t); [discriminate |].
  destruct (synchronize _ _ _ st) as [st1 n1]. discriminate.
Qed.

Lemma run_cycle_completed (t : Tick) (content : string) (st st' : Store) (o : Outcome) :
  feed t = Some content ->
  run_cycle fingerprint parse cfg t st = (st', o) ->
  completed o = true ->
  last_fingerprint st' = Some (fingerprint content).
Proof.
  unfold run_cycle. intros -> Hrun Hdone.
  destruct (last_fingerprint st) as [accepted|] eqn:Hfp.
  - destruct (String.eqb_spec (fingerprint content) accepted) as [-> | _].
    + now injection Hrun as <- _.
    + destruct o; try discriminate.
      * pose proof (process_outcome t content st) as Hne.
        rewrite Hrun in Hne. now destruct Hne.
      * eapply process_commits; exact Hrun.
  - destruct o; try discriminate.
    + pose proof (process_outcome t content st) as Hne.
      rewrite Hrun in Hne. now destruct Hne.
    + eapply process_commits; exact Hrun.
Qed.

Lemma run_cycle_unchanged (t : Tick) (content : string) (st : Store) :
  feed t = Some content ->
  last_fingerprint st = Some (fingerprint content) ->
  run_cycle fingerprint parse cfg t st = (st, Unchanged).
Proof.
  unfold run_cycle. intros -> ->. now rewrite String.eqb_refl.
Qed.

(** C5. Re-running a cycle on byte-identical feed content, after a cycle
    on that content ran to its end, is a no-op: zero rows inserted, zero
    rows updated, the last accepted fingerprint unchanged (and the whole
    store with it), for every feed content. *)
Theorem rerun_on_identical_feed_is_noop
    (t1 t2 : Tick) (content : string) (st st1 : Store) (o1 : Outcome) :
  feed t1 = Some content ->
  feed t2 = Some content ->
  run_cycle fingerprint parse cfg t1 st = (st1, o1) ->
  completed o1 = true ->
  let '(st2, o2) := run_cycle fingerprint parse cfg t2 st1 in
  o2 = Unchanged /\
  inserted (outcome_counts o2) = 0 /\
  updated (outcome_counts o2) = 0 /\
  last_fingerprint st2 = last_fingerprint st1 /\
  last_fingerprint st2 = Some (fingerprint content) /\
  st2 = st1.
Proof.
  intros Hfeed1 Hfeed2 Hrun Hdone.
  pose proof (run_cycle_completed t1 content st st1 o1 Hfeed1 Hrun Hdone) as Hfp.
  rewrite (run_cycle_unchanged t2 content st1 Hfeed2 Hfp).
  repeat split. exact Hfp.
Qed.

End CycleFacts.

Lemma rerun_on_identical_feed_is_noop_witness :
  let first :=
    Pipeline.run_cycle (fun content => content) Pipeline.one_row Pipeline.five_dollars
                       (Pipeline.tick_at 20) Pipeline.before_first_feed in
  let '(st2, o2) :=
    Pipeline.run_cycle (fun content => content) Pipeline.one_row Pipeline.five_dollars
                       (Pipeline.tick_at 80) (fst first) in
  o2 = Pipeline.Unchanged /\
  Pipeline.inserted (Pipeline.outcome_counts o2) = 0 /\
  Pipeline.updated (Pipeline.outcome_counts o2) = 0 /\
  Pipeline.last_fingerprint st2 = Pipeline.last_fingerprint (fst first) /\
  Pipeline.last_fingerprint st2 = Some Pipeline.one_row_feed /\
  st2 = fst first.
Proof.
  intros first.
  apply (rerun_on_identical_feed_is_noop (fun content => content) Pipeline.one_row
           Pipeline.five_dollars (Pipeline.tick_at 20) (Pipeline.tick_at 80)
           Pipeline.one_row_feed Pipeline.before_first_feed (fst first) (snd first)).
  - reflexivity.
  - reflexivity.
  - apply surjective_pairing.
  - vm_compute. reflexivity.
Defined.

(** The end-to-end scenario of section 8: a feed of one row priced 29.99, a
    third-party observation of 21.00 and the threshold [{absolute, 5.00}]:
    the Book is created, the price history gains one tracked entry, and the
    alert manager creates one Alert in [sent] state. *)
Example end_to_end_scenario :
  let '(st, o) :=
    Pipeline.run_cycle (fun content => content) Pipeline.one_row Pipeline.five_dollars
                       (Pipeline.tick_at 20) Pipeline.before_first_feed in
  o = Pipeline.Synced {| Pipeline.inserted := 1; Pipeline.updated := 0 |} /\
  Pipeline.books st !! "9780134685991"%string
  = Some (Pipeline.effective_python (Some (2999 # 100))) /\
  List.filter (fun h => (Pipeline.ph_source h =? Pipeline.tracked_source)%string)
              (Pipeline.price_history st)
  = [Pipeline.observed Pipeline.tracked_source (2999 # 100) 20] /\
  map Pipeline.status (Pipeline.alerts st) = [Pipeline.Sent] /\
  map (fun a => Pipeline.delta (Pipeline.tracked_price a) (Pipeline.competing_price a))
      (Pipeline.alerts st) = [899 # 100].
Proof. vm_compute. repeat split. Qed.

(** * The pages and components around the claims *)

(** ** Blank fields and the books needing attention *)

Section BlankFacts.
Import Pages.








Lemma attention_issue_members (book : Book.t) :
  (getAttentionIssues book = [] <->
   blank (Book.author book) = false /\ blank (Book.packt_url book) = false /\
   truthy_number (Book.packt_price book) = true) /\
  (In "Missing Author"%string (getAttentionIssues book)
   <-> blank (Book.author book) = true) /\
  (In "Missing URL"%string (getAttentionIssues book)
   <-> blank (Book.packt_url book) = true) /\
  (In "Missing Price"%string (getAttentionIssues book)
   <-> truthy_number (Book.packt_price book) = false).
Proof.
  unfold getAttentionIssues.
  destruct (blank (Book.author book)), (blank (Book.packt_url book)),
    (truthy_number (Book.packt_price book)); cbn [negb app];
    repeat apply conj;
    solve [cbn; intuition (try discriminate; try congruence)].
Qed.

(** X2. [getAttentionIssues] of the book list reports each of the three
    issues exactly when its field is blank (author, URL) or falsy (price),
    never twice, and returns the empty list exactly for a book with an
    author, a URL and a non-zero price. *)
Theorem no_issue_iff_complete (book : Book.t) :
  (getAttentionIssues book = [] <->
   blank (Book.author book) = false /\ blank (Book.packt_url book) = false /\
   truthy_number (Book.packt_price book) = true) /\
  (In "Missing Author"%string (getAttentionIssues book)
   <-> blank (Book.author book) = true) /\
  (In "Missing URL"%string (getAttentionIssues book)
   <-> blank (Book.packt_url book) = true) /\
  (In "Missing Price"%string (getAttentionIssues book)
   <-> truthy_number (Book.packt_price book) = false) /\
  List.NoDup (getAttentionIssues book) /\
  (length (getAttentionIssues book) <= 3)%nat.
Proof.
  destruct (attention_issue_members book) as (H0 & H1 & H2 & H3).
  split; [exact H0 |]. split; [exact H1 |]. split; [exact H2 |].
  split; [exact H3 |].
  unfold getAttentionIssues.
  destruct (blank (Book.author book)), (blank (Book.packt_url book)),
    (truthy_number (Book.packt_price book)); cbn [negb app];
    (split; [repeat constructor; cbn; intuition discriminate | cbn; lia]).
Qed.

Lemma no_issue_iff_complete_witness :
  getAttentionIssues complete_book = [] /\
  In "Missing URL"%string (getAttentionIssues unsigned_book).
Proof.
  split.
  - apply (proj1 (no_issue_iff_complete complete_book)).
    repeat split; reflexivity.
  - apply (proj1 (proj2 (proj2 (no_issue_iff_complete unsigned_book)))).
    reflexivity.
Defined.

Lemma group_fold (books : list Book.t) (g : IssueGroups.t) :
  fold_left group_book books g =
  {| IssueGroups.missing_author :=
       IssueGroups.missing_author g ++
       List.filter (fun b => blank (Book.author b)) books;
     IssueGroups.missing_url :=
       IssueGroups.missing_url g ++
       List.filter (fun b => blank (Book.packt_url b)) books;
     IssueGroups.missing_price :=
       IssueGroups.missing_price g ++ List.filter price_missing books |}.
Proof.
  revert g. induction books as [|b books IH]; intros g.
  - destruct g. cbn. now rewrite !app_nil_r.
  - cbn [fold_left List.filter]. rewrite IH. unfold group_book, price_missing.
    cbn [IssueGroups.missing_author IssueGroups.missing_url
         IssueGroups.missing_price].
    destruct (blank (Book.author b)), (blank (Book.packt_url b)),
      (negb (truthy_number (Book.packt_price b)));
      now rewrite <- ?app_assoc.
Qed.

(** X3. The dashboard's grouping and the book list's check agree: a book is
    in a group of [booksByIssue] exactly when it is one of the books given
    and [getAttentionIssues] reports that issue for it; a book with no issue
    is in no group. *)
Theorem attention_views_agree (books : list Book.t) (b : Book.t) :
  (In b (IssueGroups.missing_author (booksByIssue books)) <->
   In b books /\ In "Missing Author"%string (getAttentionIssues b)) /\
  (In b (IssueGroups.missing_url (booksByIssue books)) <->
   In b books /\ In "Missing URL"%string (getAttentionIssues b)) /\
  (In b (IssueGroups.missing_price (booksByIssue books)) <->
   In b books /\ In "Missing Price"%string (getAttentionIssues b)) /\
  (getAttentionIssues b = [] ->
   ~ In b (IssueGroups.missing_author (booksByIssue books)) /\
   ~ In b (IssueGroups.missing_url (booksByIssue books)) /\
   ~ In b (IssueGroups.missing_price (booksByIssue books))).
Proof.
  destruct (attention_issue_members b) as (Hnone & Ha & Hu & Hp).
  unfold booksByIssue. rewrite group_fold.
  cbn [IssueGroups.missing_author IssueGroups.missing_url
       IssueGroups.missing_price app].
  rewrite !filter_In, Ha, Hu, Hp. unfold price_missing. rewrite negb_true_iff.
  split; [tauto |]. split; [tauto |]. split; [tauto |].
  intros Hempty. apply Hnone in Hempty as (Hba & Hbu & Hbp).
  rewrite Hba, Hbu, Hbp. repeat split; intros [_ H]; discriminate.
Qed.

Lemma attention_views_agree_witness :
  In unsigned_book
     (IssueGroups.missing_author (booksByIssue [complete_book; unsigned_book])) /\
  ~ In complete_book
       (IssueGroups.missing_price (booksByIssue [complete_book; unsigned_book])).
Proof.
  split.
  - apply (proj1 (attention_views_agree [complete_book; unsigned_book]
                                         unsigned_book)).
    split; [right; left; reflexivity | left; reflexivity].
  - apply (proj2 (proj2 (proj2 (attention_views_agree
                                  [complete_book; unsigned_book] complete_book)))).
    reflexivity.
Defined.

Lemma filter_nil_iff {A} (f : A -> bool) (l : list A) :
  List.filter f l = [] <-> forall x, In x l -> f x = false.
Proof.
  induction l as [|a l IH]; cbn [List.filter].
  - split; [intros _ x [] | reflexivity].
  - destruct (f a) eqn:E.
    + split; [discriminate |]. intros H. specialize (H a (or_introl eq_refl)).
      congruence.
    + rewrite IH. split.
      * intros H x [<- | Hin]; [exact E | now apply H].
      * intros H x Hin. apply H. now right.
Qed.

(** X4. One section of the dashboard's attention panel: there is none for an
    empty group; otherwise the heading carries the size of the whole group,
    the rows are the first five books at most, and the closing note counts
    exactly the books left out, and is absent when none is. *)
Theorem issue_section_accounts_for_every_book (label : string) (books : list Book.t) :
  (issue_section label books = None <-> books = []) /\
  (forall sec : IssueSection.t,
      issue_section label books = Some sec ->
      IssueSection.rows sec ++ drop 5 books = books /\
      (length (IssueSection.rows sec) <= 5)%nat /\
      IssueSection.heading sec
      = label +:+ " (" +:+ show_int (Z.of_nat (length books)) +:+ ")" /\
      IssueSection.more sec
      = if (length (drop 5 books) =? 0)%nat then None
        else Some ("+" +:+ show_int (Z.of_nat (length (drop 5 books))) +:+
                   " more books with this issue")).
Proof.
  unfold issue_section. split.
  - destruct books; cbn; split; congruence.
  - intros sec. destruct (Nat.eqb_spec (length books) 0) as [|Hne]; [discriminate |].
    intros [= <-]. cbn [IssueSection.rows IssueSection.heading IssueSection.more].
    split; [apply take_drop |]. split; [rewrite length_take; lia |].
    split; [reflexivity |].
    rewrite length_drop.
    destruct (Nat.ltb_spec 5 (length books)) as [Hlt | Hge].
    + destruct (Nat.eqb_spec (length books - 5) 0) as [|_]; [lia |].
      now rewrite Nat2Z.inj_sub by lia.
    + destruct (Nat.eqb_spec (length books - 5) 0) as [_|]; [reflexivity | lia].
Qed.

Lemma issue_section_accounts_for_every_book_witness :
  exists sec,
    issue_section "Missing Price" (replicate 7 free_book) = Some sec /\
    IssueSection.rows sec = replicate 5 free_book /\
    IssueSection.heading sec = "Missing Price (7)"%string /\
    IssueSection.more sec = Some "+2 more books with this issue"%string.
Proof.
  eexists. split; [reflexivity |].
  destruct (proj2 (issue_section_accounts_for_every_book
                     "Missing Price" (replicate 7 free_book)) _ eq_refl)
    as (_ & _ & Hh & Hm).
  split; [reflexivity |]. split; [exact Hh | exact Hm].
Defined.

(** X22. The attention panel shows no section at all exactly when every book
    it is given has an author, a URL and a non-zero price. *)
Theorem no_section_iff_all_complete (books : list Book.t) :
  attention_sections books = [None; None; None] <->
  forall b, In b books -> getAttentionIssues b = [].
Proof.
  unfold attention_sections, booksByIssue. rewrite group_fold.
  cbn [IssueGroups.missing_author IssueGroups.missing_url
       IssueGroups.missing_price app].
  assert (Hnone : forall label l, issue_section label l = None <-> l = []).
  { intros label l. unfold issue_section. destruct l; cbn; split; congruence. }
  split.
  - intros [= Ha Hu Hp] b Hin.
    apply Hnone in Ha, Hu, Hp.
    pose proof (proj1 (filter_nil_iff _ _) Ha b Hin) as Ha'.
    pose proof (proj1 (filter_nil_iff _ _) Hu b Hin) as Hu'.
    pose proof (proj1 (filter_nil_iff _ _) Hp b Hin) as Hp'.
    cbv beta in Ha', Hu', Hp'.
    apply (proj2 (proj1 (attention_issue_members b))).
    unfold price_missing in Hp'. apply negb_false_iff in Hp'. auto.
  - intros H.
    assert (Hall : forall b, In b books ->
                             blank (Book.author b) = false /\
                             blank (Book.packt_url b) = false /\
                             truthy_number (Book.packt_price b) = true).
    { intros b Hin. now apply (proj1 (proj1 (attention_issue_members b))), H. }
    f_equal; [| f_equal; [| f_equal]]; apply Hnone, filter_nil_iff; intros b Hin;
      destruct (Hall b Hin) as (Ha & Hu & Hp); auto.
    unfold price_missing. now rewrite Hp.
Qed.

Lemma no_section_iff_all_complete_witness :
  attention_sections [complete_book; complete_book] = [None; None; None].
Proof.
  apply (proj2 (no_section_iff_all_complete [complete_book; complete_book])).
  intros b [<- | [<- | []]]; reflexivity.
Defined.

(** X5. The second line of a row of the attention panel,
    [{book.packt_price && ...}]: with a non-zero price the line ends with the
    formatted price, with [null] or [undefined] it is the ISBN alone, and
    with a price of zero React renders the number itself, a ["0"] after the
    ISBN, so that the row differs from that of a book without a price. *)
Theorem row_subtitle_shows_falsy_price (book : Book.t) :
  (truthy_number (Book.packt_price book) = true ->
   row_subtitle book
   = "ISBN: " +:+ Book.isbn book +:+ " " +:+ bullet +:+ " Price: " +:+
     formatPrice (Book.packt_price book)) /\
  (Book.packt_price book = null \/ Book.packt_price book = undefined ->
   row_subtitle book = "ISBN: " +:+ Book.isbn book) /\
  (forall x : number,
      Book.packt_price book = value x ->
      PrimFloat.is_nan x = false -> PrimFloat.eqb x 0 = true ->
      row_subtitle book = "ISBN: " +:+ Book.isbn book +:+ "0" /\
      row_subtitle book <> row_subtitle (with_packt_price book null)).
Proof.
  unfold row_subtitle, and_text. split; [| split].
  - destruct (Book.packt_price book) as [| | x]; try discriminate.
    cbn [truthy_number]. rewrite negb_true_iff, orb_false_iff.
    intros [-> ->]. reflexivity.
  - intros [-> | ->]; now rewrite append_empty_r.
  - intros x -> -> ->. split; [reflexivity |].
    cbn [with_packt_price Book.packt_price Book.isbn]. rewrite append_empty_r.
    intros H. apply (f_equal String.length) in H.
    rewrite !length_append in H. cbn in H. lia.
Qed.

Lemma row_subtitle_shows_falsy_price_witness :
  row_subtitle free_book = "ISBN: 97818018193120"%string /\
  row_subtitle free_book <> row_subtitle (with_packt_price free_book null).
Proof.
  exact (proj2 (proj2 (row_subtitle_shows_falsy_price free_book))
               0%float eq_refl eq_refl eq_refl).
Defined.

End BlankFacts.

(** ** Price tiers of the distribution chart *)

Section TierFacts.
Import Pages.

Lemma add_count_add_count (n m : Z) (tier : Tier.t) :
  add_count n (add_count m tier) = add_count (m + n) tier.
Proof. unfold add_count. cbn. f_equal. lia. Qed.

Lemma add_count_zero (tier : Tier.t) : add_count 0 tier = tier.
Proof. destruct tier. unfold add_count. cbn. f_equal. lia. Qed.

Lemma fold_add_bucket_lookup (buckets : list PriceBucket.t) (ts : list Tier.t) (i : nat) :
  fold_left add_bucket buckets ts !! i
  = add_count (tier_total i buckets) <$> ts !! i.
Proof.
  revert ts. induction buckets as [|b buckets IH]; intros ts.
  - cbn. destruct (ts !! i) as [t|]; cbn; [now rewrite add_count_zero | reflexivity].
  - cbn [fold_left tier_total]. rewrite IH. unfold add_bucket.
    destruct (tier_index (PriceBucket.range b)) as [j|] eqn:E.
    + destruct (decide (j = i)) as [-> | Hne].
      * rewrite list_lookup_alter_eq, bool_decide_eq_true_2 by reflexivity.
        destruct (ts !! i) as [t|]; cbn; [| reflexivity].
        now rewrite add_count_add_count.
      * rewrite list_lookup_alter_ne by exact Hne.
        rewrite bool_decide_eq_false_2 by congruence. reflexivity.
    + rewrite bool_decide_eq_false_2 by discriminate. reflexivity.
Qed.

Lemma grouped_tiers_eq (buckets : list PriceBucket.t) :
  grouped_tiers buckets
  = imap (fun i tier => add_count (tier_total i buckets) tier) tiers.
Proof.
  apply list_eq. intros i. unfold grouped_tiers.
  rewrite fold_add_bucket_lookup, list_lookup_imap. reflexivity.
Qed.

Ltac tier_label :=
  cbn; repeat split; intros; try discriminate; try tauto;
  match goal with
  | H : _ \/ _ |- _ => destruct H as [H | H]; discriminate
  end.

Lemma tier_index_ranges (range : string) :
  (tier_index range = Some 0%nat <-> range = "$0-5" \/ range = "$5-10") /\
  (tier_index range = Some 1%nat <-> range = "$10-15" \/ range = "$15-20") /\
  (tier_index range = Some 2%nat <-> range = "$20-25" \/ range = "$25-30") /\
  (tier_index range = Some 3%nat <-> range = "$30+").
Proof.
  unfold tier_index.
  destruct (String.eqb_spec range "$0-5") as [-> | H1]; [tier_label |].
  destruct (String.eqb_spec range "$5-10") as [-> | H2]; [tier_label |].
  destruct (String.eqb_spec range "$10-15") as [-> | H3]; [tier_label |].
  destruct (String.eqb_spec range "$15-20") as [-> | H4]; [tier_label |].
  destruct (String.eqb_spec range "$20-25") as [-> | H5]; [tier_label |].
  destruct (String.eqb_spec range "$25-30") as [-> | H6]; [tier_label |].
  destruct (String.eqb_spec range "$30+") as [-> | H7]; [tier_label |].
  cbn. repeat split; intros; try discriminate; tauto.
Qed.

Lemma tier_total_permutation (i : nat) (b1 b2 : list PriceBucket.t) :
  Permutation b1 b2 -> tier_total i b1 = tier_total i b2.
Proof.
  induction 1 as [| x l l' _ IH | x y l | l l' l'' _ IH1 _ IH2]; cbn [tier_total].
  - reflexivity.
  - now rewrite IH.
  - lia.
  - congruence.
Qed.

Lemma tier_total_nonneg (i : nat) (buckets : list PriceBucket.t) :
  (forall b, In b buckets -> 0 <= PriceBucket.count b) ->
  0 <= tier_total i buckets.
Proof.
  induction buckets as [|b buckets IH]; intros H; cbn [tier_total]; [lia |].
  assert (0 <= PriceBucket.count b) by (apply H; now left).
  assert (0 <= tier_total i buckets) by (apply IH; intros; apply H; now right).
  destruct (bool_decide _); lia.
Qed.

Lemma tier_total_app (i : nat) (b1 b2 : list PriceBucket.t) :
  tier_total i (b1 ++ b2) = tier_total i b1 + tier_total i b2.
Proof. induction b1 as [|b b1 IH]; cbn [app tier_total]; lia. Qed.

(** X6. After the [forEach] over the buckets the four tiers keep their names
    and colours, and the count of each is the sum of the counts of the
    buckets whose range label belongs to it: ["$0-5"] and ["$5-10"] to the
    first, ["$10-15"] and ["$15-20"] to the second, ["$20-25"] and
    ["$25-30"] to the third, ["$30+"] to the fourth. A bucket with any other
    label is counted nowhere. *)
Theorem tiers_add_up_their_ranges (buckets : list PriceBucket.t) :
  map Tier.name (grouped_tiers buckets) = map Tier.name tiers /\
  map Tier.color (grouped_tiers buckets) = map Tier.color tiers /\
  map Tier.count (grouped_tiers buckets)
  = [tier_total 0 buckets; tier_total 1 buckets;
     tier_total 2 buckets; tier_total 3 buckets] /\
  (forall before after (b : PriceBucket.t),
      tier_index (PriceBucket.range b) = None ->
      grouped_tiers (before ++ b :: after) = grouped_tiers (before ++ after)) /\
  (forall range : string,
      (tier_index range = Some 0%nat <-> range = "$0-5" \/ range = "$5-10") /\
      (tier_index range = Some 1%nat <-> range = "$10-15" \/ range = "$15-20") /\
      (tier_index range = Some 2%nat <-> range = "$20-25" \/ range = "$25-30") /\
      (tier_index range = Some 3%nat <-> range = "$30+")).
Proof.
  rewrite grouped_tiers_eq. split; [reflexivity |]. split; [reflexivity |].
  split; [reflexivity |]. split; [| exact tier_index_ranges].
  intros before after b Hb. rewrite !grouped_tiers_eq.
  apply imap_ext. intros i tier _. f_equal.
  rewrite !tier_total_app. cbn [tier_total].
  rewrite bool_decide_eq_false_2 by congruence. lia.
Qed.

Lemma tiers_add_up_their_ranges_witness :
  grouped_tiers ([bucket "$0-5" 3] ++ bucket "$35-40" 9 :: [bucket "$30+" 2])
  = grouped_tiers ([bucket "$0-5" 3] ++ [bucket "$30+" 2]).
Proof.
  exact (proj1 (proj2 (proj2 (proj2 (tiers_add_up_their_ranges []))))
               [bucket "$0-5" 3] [bucket "$30+" 2] (bucket "$35-40" 9) eq_refl).
Defined.

(** X7. The tiers, and the slices the chart draws, do not depend on the order
    in which the server lists the buckets. *)
Theorem tiers_ignore_bucket_order (b1 b2 : list PriceBucket.t) :
  Permutation b1 b2 ->
  grouped_tiers b1 = grouped_tiers b2 /\ chartData b1 = chartData b2.
Proof.
  intros Hp.
  assert (grouped_tiers b1 = grouped_tiers b2) as Heq.
  { rewrite !grouped_tiers_eq. apply imap_ext. intros i tier _.
    f_equal. now apply tier_total_permutation. }
  split; [exact Heq |]. unfold chartData. now rewrite Heq.
Qed.

Lemma tiers_ignore_bucket_order_witness :
  chartData [bucket "$30+" 2; bucket "$5-10" 4; bucket "$0-5" 3]
  = chartData [bucket "$0-5" 3; bucket "$5-10" 4; bucket "$30+" 2].
Proof.
  apply (tiers_ignore_bucket_order
           [bucket "$30+" 2; bucket "$5-10" 4; bucket "$0-5" 3]
           [bucket "$0-5" 3; bucket "$5-10" 4; bucket "$30+" 2]).
  apply (Permutation_rev [bucket "$30+" 2; bucket "$5-10" 4; bucket "$0-5" 3]).
Defined.

Lemma total_count_positive_part (ts : list Tier.t) :
  (forall tier, In tier ts -> 0 <= Tier.count tier) ->
  total_count (List.filter (fun tier => 0 <? Tier.count tier) ts) = total_count ts.
Proof.
  induction ts as [|t ts IH]; intros H; [reflexivity |].
  assert (0 <= Tier.count t) by (apply H; now left).
  assert (IH' := IH (fun tier Hin => H tier (or_intror Hin))).
  cbn [List.filter]. destruct (Z.ltb_spec 0 (Tier.count t)); cbn [total_count foldr].
  - fold (total_count (List.filter (fun tier => 0 <? Tier.count tier) ts)).
    fold (total_count ts). lia.
  - fold (total_count ts). lia.
Qed.

(** X8. The chart draws only tiers with a positive count, and dropping the
    empty tiers loses no book: when no bucket has a negative count, the
    counts of the slices add up to the counts of all buckets with a known
    range label. *)
Theorem chart_keeps_every_counted_book (buckets : list PriceBucket.t) :
  (forall tier, In tier (chartData buckets) ->
                0 < Tier.count tier /\ In tier (grouped_tiers buckets)) /\
  ((forall b, In b buckets -> 0 <= PriceBucket.count b) ->
   total_count (chartData buckets)
   = tier_total 0 buckets + tier_total 1 buckets +
     tier_total 2 buckets + tier_total 3 buckets).
Proof.
  split.
  - intros tier Hin. unfold chartData in Hin. apply filter_In in Hin as [Hin Hpos].
    split; [now apply Z.ltb_lt | exact Hin].
  - intros Hnonneg. unfold chartData.
    assert (H0 := tier_total_nonneg 0 buckets Hnonneg).
    assert (H1 := tier_total_nonneg 1 buckets Hnonneg).
    assert (H2 := tier_total_nonneg 2 buckets Hnonneg).
    assert (H3 := tier_total_nonneg 3 buckets Hnonneg).
    rewrite total_count_positive_part.
    + rewrite grouped_tiers_eq. cbn. lia.
    + rewrite grouped_tiers_eq. cbn. intros tier Hin.
      repeat destruct Hin as [<- | Hin]; cbn; lia || destruct Hin.
Qed.

Lemma chart_keeps_every_counted_book_witness :
  total_count (chartData [bucket "$0-5" 3; bucket "$5-10" 4; bucket "$20-25" 0;
                          bucket "$30+" 2])
  = 7 + 0 + 0 + 2.
Proof.
  apply (proj2 (chart_keeps_every_counted_book
                  [bucket "$0-5" 3; bucket "$5-10" 4; bucket "$20-25" 0;
                   bucket "$30+" 2])).
  intros b [<- | [<- | [<- | [<- | []]]]]; cbn; lia.
Defined.

End TierFacts.

(** ** Pagination and sorting *)

Section PagingFacts.
Import Pages.

Lemma click_step (page : Z) (c : Click) :
  1 <= page ->
  1 <= click page c /\
  match c with
  | Previous => click page c = page - 1 \/ (page = 1 /\ click page c = page)
  | Next total_pages =>
      (page < total_pages /\ click page c = page + 1) \/
      (total_pages <= page /\ click page c = page)
  end.
Proof.
  intros Hp. destruct c as [|total_pages]; cbn [click].
  - unfold previous_disabled, previous_page.
    destruct (Z.eqb_spec page 1); lia.
  - unfold next_disabled, next_page.
    destruct (Z.leb_spec total_pages page); lia.
Qed.

(** X9. The footer buttons of the two lists move the page by one and never
    out of range: "Previous" does nothing on page 1, "Next" does nothing on
    the last page, so that any sequence of clicks from the first page stays
    between 1 and the number of pages of the listing. *)
Theorem page_stays_within_the_listing :
  (forall (page : Z) (c : Click),
      1 <= page ->
      1 <= click page c /\
      match c with
      | Previous => click page c = page - 1 \/ (page = 1 /\ click page c = page)
      | Next total_pages =>
          (page < total_pages /\ click page c = page + 1) \/
          (total_pages <= page /\ click page c = page)
      end) /\
  (forall clicks : list Click, 1 <= fold_left click clicks 1) /\
  (forall (total_pages : Z) (clicks : list Click),
      (forall c, In c clicks -> c = Previous \/ c = Next total_pages) ->
      1 <= fold_left click clicks 1 <= Z.max 1 total_pages).
Proof.
  split; [exact click_step |]. split.
  - intros clicks.
    assert (forall page, 1 <= page -> 1 <= fold_left click clicks page) as H.
    { induction clicks as [|c clicks IH]; intros page Hp; [exact Hp |].
      cbn [fold_left]. apply IH. now apply click_step. }
    apply H. lia.
  - intros total_pages clicks.
    assert (forall page, 1 <= page <= Z.max 1 total_pages ->
                         (forall c, In c clicks -> c = Previous \/ c = Next total_pages) ->
                         1 <= fold_left click clicks page <= Z.max 1 total_pages) as H.
    { induction clicks as [|c clicks IH]; intros page Hp Hc; [exact Hp |].
      cbn [fold_left]. apply IH; [| intros c' Hin; apply Hc; now right].
      destruct (click_step page c ltac:(lia)) as [H1 H2].
      destruct (Hc c (or_introl eq_refl)) as [-> | ->]; lia. }
    apply H. lia.
Qed.

Lemma page_stays_within_the_listing_witness :
  1 <= fold_left click [Next 3; Next 3; Next 3; Next 3; Previous] 1 <= Z.max 1 3.
Proof.
  apply (proj2 (proj2 page_stays_within_the_listing) 3
               [Next 3; Next 3; Next 3; Next 3; Previous]).
  intros c [<- | [<- | [<- | [<- | [<- | []]]]]]; auto.
Defined.

(** X10. The "Showing a to b of total" line: on every page that has rows the
    range starts at 1 on the first page, lies within the total and covers
    twenty rows, or what is left on the last page; on a page past the end
    the upper bound falls below the lower one. *)
Theorem showing_range_of_a_page (page total : Z) :
  showing_to page total - showing_from page + 1
  = Z.min 20 (total - 20 * (page - 1)) /\
  (1 <= page -> 20 * (page - 1) < total ->
   1 <= showing_from page <= showing_to page total /\
   showing_to page total <= total) /\
  (total <= 20 * (page - 1) -> showing_to page total < showing_from page).
Proof. unfold showing_to, showing_from. lia. Qed.

Lemma showing_range_of_a_page_witness :
  (1 <= showing_from 2 <= showing_to 2 35 /\ showing_to 2 35 <= 35) /\
  showing_to 1 0 < showing_from 1.
Proof.
  split.
  - apply (proj1 (proj2 (showing_range_of_a_page 2 35))); lia.
  - apply (proj2 (proj2 (showing_range_of_a_page 1 0))); lia.
Defined.

(** X11. [handleSort] of the book list: a click on a column header sorts by
    that column; on a new column the order is ascending, on the current one
    the order flips, so that two clicks on the current column restore the
    state; the search text and the page are never touched. *)
Theorem handleSort_cycles (st : BooksState.t) (field : string) :
  BooksState.sort (handleSort st field) = field /\
  BooksState.search (handleSort st field) = BooksState.search st /\
  BooksState.page (handleSort st field) = BooksState.page st /\
  (BooksState.sort st <> field -> BooksState.order (handleSort st field) = asc) /\
  (BooksState.sort st = field ->
   BooksState.order (handleSort st field) <> BooksState.order st /\
   handleSort (handleSort st field) field = st) /\
  handleSort (handleSort (handleSort st field) field) field = handleSort st field.
Proof.
  destruct st as [search page sort order]. unfold handleSort.
  cbn [BooksState.sort BooksState.search BooksState.page BooksState.order].
  destruct (String.eqb_spec sort field) as [-> | Hne].
  - cbn [BooksState.sort BooksState.search BooksState.page BooksState.order].
    rewrite String.eqb_refl.
    cbn [BooksState.sort BooksState.search BooksState.page BooksState.order].
    rewrite String.eqb_refl.
    repeat split; try congruence; destruct order; cbn; congruence.
  - cbn [BooksState.sort BooksState.search BooksState.page BooksState.order].
    rewrite String.eqb_refl.
    cbn [BooksState.sort BooksState.search BooksState.page BooksState.order].
    rewrite String.eqb_refl.
    repeat split; try congruence.
Qed.

Lemma handleSort_cycles_witness :
  BooksState.order (handleSort books_initial "title") = asc /\
  handleSort (handleSort books_initial "id") "id" = books_initial.
Proof.
  split.
  - apply (proj1 (proj2 (proj2 (proj2 (handleSort_cycles books_initial "title"))))).
    discriminate.
  - apply (proj1 (proj2 (proj2 (proj2 (proj2
             (handleSort_cycles books_initial "id")))))).
    reflexivity.
Defined.

End PagingFacts.

(** ** The queries of the pages *)

Section QueryFacts.
Import Pages.

Lemma books_query_request (st : BooksState.t) :
  books_query st
  = useQuery
      {| method := GET; url := "/api/books";
         params :=
           (if (BooksState.search st =? "")%string then []
            else [("search", PStr (BooksState.search st))]%string) ++
           [("sort", PStr (BooksState.sort st));
            ("order", PStr (order_name (BooksState.order st)));
            ("page", PInt (BooksState.page st));
            ("limit", PInt 20)]%string |}
      true.
Proof.
  unfold books_query, useBooks, booksAPI.list, api_get, books_params, or_undefined.
  cbn [BooksListParams.search BooksListParams.sort BooksListParams.order
       BooksListParams.page BooksListParams.limit BooksListParams.alert_only].
  destruct (BooksState.search st =? "")%string; reflexivity.
Qed.

Lemma alerts_query_request (st : AlertsState.t) :
  alerts_query st
  = useQuery
      {| method := GET; url := "/api/alerts";
         params :=
           (if (AlertsState.status st =? "")%string then []
            else [("status", PStr (AlertsState.status st))]%string) ++
           [("page", PInt (AlertsState.page st)); ("limit", PInt 20)]%string |}
      true.
Proof.
  unfold alerts_query, useAlerts, alertsAPI.list, api_get, alerts_params, or_undefined.
  cbn [AlertsListParams.status AlertsListParams.date_from AlertsListParams.date_to
       AlertsListParams.page AlertsListParams.limit].
  destruct (AlertsState.status st =? "")%string; reflexivity.
Qed.

(** X12. What the two list pages ask the server: a GET of [/api/books] with
    sort, order, page and a limit of 20, and a GET of [/api/alerts] with
    page and a limit of 20. An empty search box or an "All" status filter
    sends no [search] or [status] parameter at all, never an empty one, and
    choosing a status asks for page 1. *)
Theorem list_pages_requests :
  (forall st : BooksState.t,
      books_query st
      = useQuery
          {| method := GET; url := "/api/books";
             params :=
               (if (BooksState.search st =? "")%string then []
                else [("search", PStr (BooksState.search st))]%string) ++
               [("sort", PStr (BooksState.sort st));
                ("order", PStr (order_name (BooksState.order st)));
                ("page", PInt (BooksState.page st));
                ("limit", PInt 20)]%string |}
          true) /\
  (forall st : AlertsState.t,
      alerts_query st
      = useQuery
          {| method := GET; url := "/api/alerts";
             params :=
               (if (AlertsState.status st =? "")%string then []
                else [("status", PStr (AlertsState.status st))]%string) ++
               [("page", PInt (AlertsState.page st)); ("limit", PInt 20)]%string |}
          true) /\
  (forall (st : BooksState.t) (r : Request),
      hook_issues (books_query st) r -> ~ In ("search", PStr "")%string (params r)) /\
  (forall (st : AlertsState.t) (r : Request),
      hook_issues (alerts_query st) r -> ~ In ("status", PStr "")%string (params r)) /\
  (forall (st : AlertsState.t) (v : string) (r : Request),
      hook_issues (alerts_query (select_status st v)) r ->
      In ("page", PInt 1)%string (params r)).
Proof.
  split; [exact books_query_request |]. split; [exact alerts_query_request |].
  split; [| split].
  - intros st r Hr. rewrite books_query_request in Hr. cbn in Hr. subst r.
    cbn [params].
    destruct (String.eqb_spec (BooksState.search st) "") as [|Hne]; cbn;
      intros H; repeat destruct H as [H | H]; try discriminate; try contradiction.
    injection H as H. now apply Hne.
  - intros st r Hr. rewrite alerts_query_request in Hr. cbn in Hr. subst r.
    cbn [params].
    destruct (String.eqb_spec (AlertsState.status st) "") as [|Hne]; cbn;
      intros H; repeat destruct H as [H | H]; try discriminate; try contradiction.
    injection H as H. now apply Hne.
  - intros st v r Hr. rewrite alerts_query_request in Hr. cbn in Hr. subst r.
    cbn [params]. apply in_or_app. right. now left.
Qed.

Lemma list_pages_requests_witness :
  ~ In ("search", PStr "")%string
       (params {| method := GET; url := "/api/books";
                  params := [("sort", PStr "id"); ("order", PStr "asc");
                             ("page", PInt 1); ("limit", PInt 20)]%string |}) /\
  In ("page", PInt 1)%string
     (params {| method := GET; url := "/api/alerts";
                params := [("status", PStr "sent"); ("page", PInt 1);
                           ("limit", PInt 20)]%string |}).
Proof.
  split.
  - apply (proj1 (proj2 (proj2 list_pages_requests)) books_initial). reflexivity.
  - apply (proj2 (proj2 (proj2 (proj2 list_pages_requests)))
                 {| AlertsState.page := 4; AlertsState.status := "" |}
                 "sent"%string).
    reflexivity.
Defined.

(** X13. The detail page asks for the price history only once the book is
    loaded and has a non-zero id, and for the book only when the route has
    an ISBN. For a loaded book the page and the chart it renders make the
    same request, a limit of 100 on the history of that book, under the same
    query key, so that the two share one cache entry. *)
Theorem detail_page_history_query (book : maybe Book.t) :
  (forall q en,
      book_detail_history_query book = useQuery q en ->
      (en = true <-> exists b, book = value b /\ Book.id b <> 0)) /\
  (forall b : Book.t,
      book = value b -> Book.id b <> 0 ->
      book_detail_history_query book = price_history_chart_query (Book.id b) /\
      queryKey (UsePriceHistory (book_id_or_zero book) None)
      = queryKey (UsePriceHistory (Book.id b) (Some 100)) /\
      forall r, hook_issues (book_detail_history_query book) r ->
                r = {| method := GET;
                       url := "/api/books/" +:+ show_int (Book.id b) +:+ "/price-history";
                       params := [("limit", PInt 100)]%string |}) /\
  (forall (isbn : maybe string) q en,
      book_detail_book_query isbn = useQuery q en ->
      (en = true <-> exists s, isbn = value s /\ s <> ""%string)).
Proof.
  split; [| split].
  - intros q en. unfold book_detail_history_query, usePriceHistory, nonzero.
    intros [= _ <-]. rewrite negb_true_iff, Z.eqb_neq.
    destruct book as [| | b]; cbn [book_id_or_zero].
    + split; [lia | intros (b & [=] & _)].
    + split; [lia | intros (b & [=] & _)].
    + destruct (Z.eqb_spec (Book.id b) 0) as [E | E].
      * split; [lia | intros (b' & [= <-] & H); contradiction].
      * split; [intros _; now exists b | auto].
  - intros b -> Hid. unfold book_detail_history_query, price_history_chart_query,
      usePriceHistory. cbn [book_id_or_zero default queryKey].
    destruct (Z.eqb_spec (Book.id b) 0) as [E | _]; [contradiction |].
    split; [reflexivity |]. split; [reflexivity |].
    intros r ->. reflexivity.
  - intros isbn q en. unfold book_detail_book_query, useBook, nonempty.
    intros [= _ <-]. rewrite negb_true_iff, String.eqb_neq.
    destruct isbn as [| | s]; cbn [or_else].
    + split; [congruence | intros (s & [=] & _)].
    + split; [congruence | intros (s & [=] & _)].
    + destruct (String.eqb_spec s "") as [-> | Hne].
      * split; [congruence | intros (s' & [= <-] & H); contradiction].
      * split; [intros _; now exists s | auto].
Qed.

Lemma detail_page_history_query_witness :
  book_detail_history_query (value complete_book) = price_history_chart_query 7.
Proof.
  refine (proj1 (proj1 (proj2 (detail_page_history_query (value complete_book)))
                       complete_book eq_refl _)).
  discriminate.
Defined.

(** X14. The tooltips of the two line charts format a value the same way,
    and both hide a price of zero: for a non-zero number they show what
    [formatPrice] shows, for zero they show ["N/A"] where [formatPrice]
    shows an amount. *)
Theorem chart_tooltips_hide_zero (v : maybe number) :
  price_trends_tooltip v = price_history_tooltip v /\
  (truthy_number v = true -> price_history_tooltip v = formatPrice v) /\
  (v = null \/ v = undefined -> price_history_tooltip v = formatPrice v) /\
  (forall x : number,
      v = value x -> truthy_number v = false ->
      price_history_tooltip v = "N/A"%string /\
      price_history_tooltip v <> formatPrice v).
Proof.
  unfold price_trends_tooltip, price_history_tooltip. split; [| split; [| split]].
  - destruct v as [| | x]; reflexivity.
  - now intros ->.
  - intros [-> | ->]; reflexivity.
  - intros x -> ->. split; [reflexivity |].
    unfold formatPrice. rewrite append_cons. discriminate.
Qed.

Lemma chart_tooltips_hide_zero_witness :
  price_history_tooltip (value 0%float) = "N/A"%string /\
  price_history_tooltip (value 0%float) <> formatPrice (value 0%float).
Proof.
  exact (proj2 (proj2 (proj2 (chart_tooltips_hide_zero (value 0%float))))
               0%float eq_refl eq_refl).
Defined.

End QueryFacts.

(** ** Cards, navigation and cache keys *)

Section DashboardFacts.
Import Pages.

(** X15. The cards of the catalog row treat a missing and a zero statistic
    alike. "Catalog Value" never shows ["N/A"]: it shows ["$0.00"] for a
    missing or zero total and the formatted total otherwise. "Average Price"
    shows ["N/A"] exactly when the average is missing or zero, and "Price
    Range" exactly when the minimum or the maximum is. *)
Theorem summary_cards_zero_handling (stats : DashboardStats.t) :
  (exists v,
      card_value "Catalog Value" (catalogCards stats) = Some v /\
      v <> "N/A"%string /\
      (truthy_number (DashboardStats.total_catalog_value stats) = false ->
       v = "$0.00"%string) /\
      (truthy_number (DashboardStats.total_catalog_value stats) = true ->
       v = formatPrice (DashboardStats.total_catalog_value stats))) /\
  (card_value "Average Price" (catalogCards stats) = Some "N/A"%string <->
   truthy_number (DashboardStats.average_price stats) = false) /\
  (card_value "Price Range" (catalogCards stats) = Some "N/A"%string <->
   truthy_number (DashboardStats.min_price stats) = false \/
   truthy_number (DashboardStats.max_price stats) = false).
Proof.
  unfold card_value, catalogCards.
  cbn [find Card.title Card.value String.eqb Ascii.eqb Bool.eqb].
  split; [| split].
  - eexists. split; [reflexivity |].
    destruct (DashboardStats.total_catalog_value stats) as [| | x];
      cbn [truthy_number]; try (repeat split; congruence).
    destruct (negb _); repeat split; congruence || discriminate.
  - destruct (DashboardStats.average_price stats) as [| | x];
      cbn [truthy_number]; try (split; congruence).
    destruct (negb _); split; try congruence.
    intros [= H].
  - destruct (truthy_number (DashboardStats.min_price stats)) eqn:Emin;
      [| cbn; split; auto].
    destruct (truthy_number (DashboardStats.max_price stats)) eqn:Emax;
      [| cbn; split; auto].
    cbn [andb]. split; [| intros [|]; discriminate].
    destruct (DashboardStats.min_price stats) as [| | x]; discriminate.
Qed.

Lemma summary_cards_zero_handling_witness :
  card_value "Average Price" (catalogCards quiet_stats) = Some "N/A"%string /\
  card_value "Price Range" (catalogCards quiet_stats) = Some "N/A"%string.
Proof.
  split.
  - apply (proj2 (proj1 (proj2 (summary_cards_zero_handling quiet_stats)))).
    reflexivity.
  - apply (proj2 (proj2 (proj2 (summary_cards_zero_handling quiet_stats)))).
    left. reflexivity.
Defined.

(** X16. The sidebar highlights the link whose path is the current one, at
    most one of the four; on a book's detail page, [/books/<isbn>], no link
    is highlighted, "Books" included. *)
Theorem sidebar_highlights_at_most_one_link (pathname : string) :
  (length (List.filter (isActive pathname) navigation) <= 1)%nat /\
  (forall item, In item navigation ->
                (In item (List.filter (isActive pathname) navigation)
                 <-> pathname = snd item)) /\
  (forall isbn : string,
      pathname = "/books/" +:+ isbn ->
      List.filter (isActive pathname) navigation = []).
Proof.
  split; [| split].
  - unfold navigation, isActive. cbn [List.filter snd].
    destruct (String.eqb_spec pathname "/") as [-> | ?]; [cbn; lia |].
    destruct (String.eqb_spec pathname "/books") as [-> | ?]; [cbn; lia |].
    destruct (String.eqb_spec pathname "/alerts") as [-> | ?]; [cbn; lia |].
    destruct (String.eqb_spec pathname "/trends") as [-> | ?]; cbn; lia.
  - intros item Hin. rewrite filter_In. unfold isActive.
    rewrite String.eqb_eq. tauto.
  - intros isbn ->. unfold navigation, isActive. cbn [List.filter snd].
    rewrite !append_cons, append_nil. cbn. destruct isbn; reflexivity.
Qed.

Lemma sidebar_highlights_at_most_one_link_witness :
  List.filter (isActive "/books/9781801819312") navigation = [] /\
  In ("Alerts", "/alerts")%string (List.filter (isActive "/alerts") navigation).
Proof.
  split.
  - exact (proj2 (proj2 (sidebar_highlights_at_most_one_link "/books/9781801819312"))
                 "9781801819312"%string eq_refl).
  - apply (proj1 (proj2 (sidebar_highlights_at_most_one_link "/alerts"))
                 ("Alerts", "/alerts")%string).
    + right. right. left. reflexivity.
    + reflexivity.
Defined.

(** X17. After a successful acknowledge the mutation invalidates the queries
    under the key [['alerts']]: by React Query's prefix matching these are
    the alert list and the active-alert list, whatever their parameters, and
    no other hook's query; the query of a single alert, keyed [['alert', id]],
    stays cached. *)
Theorem acknowledge_invalidates_the_alert_lists (h : Hook) :
  (forall key,
      queryKey h = Some key ->
      (partialMatchKey key acknowledge_invalidates = true <->
       (exists params, h = UseAlerts params) \/
       (exists page limit, h = UseActiveAlerts page limit))) /\
  (queryKey h = None <-> h = UseAcknowledgeAlert) /\
  (forall alertId key,
      queryKey (UseAlert alertId) = Some key ->
      partialMatchKey key acknowledge_invalidates = false).
Proof.
  split; [| split].
  - intros key Hkey. destruct h; cbn in Hkey; try discriminate;
      injection Hkey as <-; cbn;
      (split; [try discriminate; intros _; eauto | intros [[? H] | (? & ? & H)];
               try discriminate; reflexivity]).
  - destruct h; cbn; split; congruence.
  - intros alertId key [= <-]. reflexivity.
Qed.

Lemma acknowledge_invalidates_the_alert_lists_witness :
  partialMatchKey [kstr "alerts"; kstr "active"; kint 1; kint 50]
                  acknowledge_invalidates = true /\
  partialMatchKey [kstr "alert"; kint 12] acknowledge_invalidates = false.
Proof.
  split.
  - apply (proj2 (proj1 (acknowledge_invalidates_the_alert_lists
                           (UseActiveAlerts None None)) _ eq_refl)).
    right. exists None, None. reflexivity.
  - exact (proj2 (proj2 (acknowledge_invalidates_the_alert_lists UseDashboardStats))
                 12 _ eq_refl).
Defined.

(** X19. A card of the alert list offers the Acknowledge button exactly for
    an alert in state [sent], which is exactly when its badge is red; a
    failed, acknowledged or pending alert has no button. *)
Theorem acknowledge_offered_on_sent_only (alert : Alert.t) :
  (AlertCard.acknowledge_button (alert_card alert) = true <->
   Alert.status alert = "sent"%string) /\
  (AlertCard.acknowledge_button (alert_card alert) = true <->
   badge_class (Alert.status alert) = "bg-red-100 text-red-800"%string) /\
  (Alert.status alert = "failed"%string \/
   Alert.status alert = "acknowledged"%string \/
   Alert.status alert = "pending"%string ->
   AlertCard.acknowledge_button (alert_card alert) = false).
Proof.
  unfold alert_card, badge_class. cbn [AlertCard.acknowledge_button].
  split; [apply String.eqb_eq |]. split.
  - destruct (String.eqb_spec (Alert.status alert) "sent") as [|Hne].
    + now split.
    + destruct (Alert.status alert =? "acknowledged")%string;
        split; discriminate.
  - intros [-> | [-> | ->]]; reflexivity.
Qed.

Lemma acknowledge_offered_on_sent_only_witness :
  AlertCard.acknowledge_button (alert_card sent_alert) = true.
Proof.
  apply (proj2 (proj1 (acknowledge_offered_on_sent_only sent_alert))).
  reflexivity.
Defined.

End DashboardFacts.

(** ** Identifiers in request paths and on cards *)

Section PathFacts.
Import Pages.

Lemma list_ascii_of_string_append (a b : string) :
  list_ascii_of_string (a +:+ b) = list_ascii_of_string a ++ list_ascii_of_string b.
Proof.
  induction a as [| c a IH]; [now rewrite append_nil |].
  rewrite append_cons. cbn [list_ascii_of_string]. now rewrite IH.
Qed.

Lemma digits_value_snoc (s : string) (c : ascii) :
  digits_value (s +:+ String c "") =
  10 * digits_value s + (Z.of_N (N_of_ascii c) - 48).
Proof.
  unfold digits_value. rewrite list_ascii_of_string_append, fold_left_app.
  reflexivity.
Qed.

Lemma N_of_digit_char (d : Z) :
  0 <= d < 10 -> Z.of_N (N_of_ascii (digit_char d)) = 48 + d.
Proof.
  intros H.
  assert (Hd : d = 0 \/ d = 1 \/ d = 2 \/ d = 3 \/ d = 4 \/
               d = 5 \/ d = 6 \/ d = 7 \/ d = 8 \/ d = 9) by lia.
  repeat (destruct Hd as [-> | Hd]; [reflexivity |]). now subst.
Qed.

Lemma digits_value_decimal (n : Z) : 0 <= n -> digits_value (decimal n) = n.
Proof.
  revert n. apply (Zlt_0_ind (fun n => digits_value (decimal n) = n)).
  intros n IH Hn.
  destruct (Z_lt_le_dec n 10) as [Hlt | Hge].
  - rewrite decimal_digit by lia. unfold digits_value.
    cbn [list_ascii_of_string fold_left]. rewrite N_of_digit_char; lia.
  - rewrite decimal_step, digits_value_snoc by lia.
    rewrite IH by (split; [apply Z.div_pos | apply Z.div_lt_upper_bound]; lia).
    rewrite N_of_digit_char by (apply Z.mod_pos_bound; lia).
    pose proof (Z.div_mod n 10). lia.
Qed.

Lemma decimal_head (n : Z) :
  0 <= n -> exists c rest, decimal n = String c rest /\ is_digit c = true.
Proof.
  intros Hn. pose proof (all_digits_decimal n Hn) as Hall.
  pose proof (decimal_nonempty n) as Hlen.
  destruct (decimal n) as [| c rest]; [cbn in Hlen; lia |].
  exists c, rest. split; [reflexivity |].
  cbn [all_digits] in Hall. now apply andb_true_iff in Hall.
Qed.

Lemma read_int_show_int (n : Z) : read_int (show_int n) = n.
Proof.
  unfold show_int. destruct (Z.ltb_spec n 0) as [Hneg | Hpos].
  - rewrite append_cons, append_nil. cbn [read_int].
    change ("-" =? "-")%char with true. cbv iota.
    rewrite digits_value_decimal; lia.
  - destruct (decimal_head n Hpos) as (c & rest & E & Hc).
    pose proof (digits_value_decimal n Hpos) as Hv. rewrite E in *.
    cbn [read_int].
    destruct (Ascii.eqb_spec c "-") as [-> | _]; [discriminate Hc | exact Hv].
Qed.

Lemma append_cancel_r (a b c : string) : a +:+ c = b +:+ c -> a = b.
Proof.
  revert b. induction a as [| x a IH]; intros [| y b] H.
  - reflexivity.
  - apply (f_equal String.length) in H. rewrite !length_append in H.
    cbn in H. lia.
  - apply (f_equal String.length) in H. rewrite !length_append in H.
    cbn in H. lia.
  - rewrite !append_cons in H. injection H as -> H. f_equal. now apply IH.
Qed.

Lemma append_cancel_l (a b c : string) : a +:+ b = a +:+ c -> b = c.
Proof.
  induction a as [| x a IH]; [now rewrite !append_nil |].
  rewrite !append_cons. intros [= H]. now apply IH.
Qed.

Lemma show_int_inj (a b : Z) : show_int a = show_int b -> a = b.
Proof.
  intros H. apply (f_equal read_int) in H. now rewrite !read_int_show_int in H.
Qed.

(** X18. The id a request path is built from can be read back from it: two
    acknowledge calls, two single-alert calls or two price-history calls go
    to the same path only for the same id, and the path of a single alert is
    never that of the active-alert list or of the alert list. *)
Theorem paths_identify_the_record (a b : Z) :
  read_int (show_int a) = a /\
  (url (alertsAPI.acknowledge a) = url (alertsAPI.acknowledge b) <-> a = b) /\
  (url (alertsAPI.get a) = url (alertsAPI.get b) <-> a = b) /\
  (forall l1 l2,
      url (booksAPI.getPriceHistory a l1) = url (booksAPI.getPriceHistory b l2)
      <-> a = b) /\
  (forall page limit,
      url (alertsAPI.get a) <> url (alertsAPI.getActive page limit)) /\
  url (alertsAPI.get a) <> url (alertsAPI.list None).
Proof.
  split; [apply read_int_show_int |].
  unfold alertsAPI.acknowledge, alertsAPI.get, booksAPI.getPriceHistory,
    alertsAPI.getActive, alertsAPI.list, api_get, api_post.
  cbn [url].
  split; [| split; [| split; [| split]]].
  - split; [| now intros ->].
    intros H. apply append_cancel_l, append_cancel_r in H.
    now apply show_int_inj.
  - split; [| now intros ->].
    intros H. apply append_cancel_l in H. now apply show_int_inj.
  - intros l1 l2. split; [| now intros ->].
    intros H. apply append_cancel_l, append_cancel_r in H.
    now apply show_int_inj.
  - intros _ _ H.
    change "/api/alerts/active"%string with ("/api/alerts/" +:+ "active")%string in H.
    apply append_cancel_l in H. unfold show_int in H.
    destruct (a <? 0) eqn:Hneg.
    + rewrite append_cons in H. discriminate H.
    + apply Z.ltb_ge in Hneg. destruct (decimal_head a Hneg) as (c & rest & E & Hc).
      rewrite E in H. injection H as -> _. discriminate Hc.
  - intros H. apply (f_equal String.length) in H.
    rewrite length_append in H. cbn in H. lia.
Qed.

Lemma paths_identify_the_record_witness :
  url (alertsAPI.acknowledge 12) <> url (alertsAPI.acknowledge 120) /\
  url (alertsAPI.get 12) <> url (alertsAPI.getActive (Some 1) (Some 12)).
Proof.
  split.
  - intros H.
    apply (proj1 (proj1 (proj2 (paths_identify_the_record 12 120)))) in H.
    discriminate H.
  - exact (proj1 (proj2 (proj2 (proj2 (proj2 (paths_identify_the_record 12 12)))))
                 (Some 1) (Some 12)).
Defined.

(** X21. The count cards show the counts: the number on "Total Books" and on
    each of the three quality cards reads back as the statistic itself, and
    a quality card says "Needs attention" or "Not tracked" exactly when the
    number it shows is positive, "All complete" or "All tracked" otherwise. *)
Theorem count_cards_show_the_counts (stats : DashboardStats.t) :
  map (fun c => read_int (Card.value c)) (take 3 (qualityCards stats))
  = [DashboardStats.books_missing_authors stats;
     DashboardStats.books_missing_urls stats;
     DashboardStats.books_without_price_history stats] /\
  (exists v, card_value "Total Books" (catalogCards stats) = Some v /\
             read_int v = DashboardStats.total_books stats) /\
  (forall c : Card.t,
      In c (take 3 (qualityCards stats)) ->
      (0 < read_int (Card.value c) ->
       Card.subtitle c = Some "Needs attention"%string \/
       Card.subtitle c = Some "Not tracked"%string) /\
      (read_int (Card.value c) <= 0 ->
       Card.subtitle c = Some "All complete"%string \/
       Card.subtitle c = Some "All tracked"%string)).
Proof.
  unfold qualityCards, catalogCards, card_value.
  cbn [take map Card.value find Card.title String.eqb Ascii.eqb Bool.eqb].
  rewrite !read_int_show_int. split; [reflexivity |].
  split; [eexists; split; [reflexivity | apply read_int_show_int] |].
  intros c [<- | [<- | [<- | []]]]; cbn [Card.value Card.subtitle];
    rewrite read_int_show_int;
    match goal with |- context [0 <? ?n] => destruct (Z.ltb_spec 0 n) end;
    split; intros; auto; lia.
Qed.

Lemma count_cards_show_the_counts_witness :
  let card :=
    {| Card.title := "Missing Authors"; Card.value := "4";
       Card.color := "bg-orange-500";
       Card.subtitle := Some "Needs attention"%string |} in
  In card (qualityCards quiet_stats) /\
  (Card.subtitle card = Some "Needs attention"%string \/
   Card.subtitle card = Some "Not tracked"%string).
Proof.
  intros card. split; [left; reflexivity |].
  apply (proj1 (proj2 (proj2 (count_cards_show_the_counts quiet_stats))
                      card (or_introl eq_refl))).
  reflexivity.
Defined.

End PathFacts.

(** ** Percentages *)

Section PercentFacts.

Lemma percent_not_NA (s : string) : s +:+ "%" <> "N/A"%string.
Proof.
  destruct s as [| a [| b [| c s]]]; rewrite ?append_cons, ?append_nil;
    try discriminate.
  destruct s; rewrite ?append_cons, ?append_nil; discriminate.
Qed.

(** X20. [formatPercentage] returns ["N/A"] exactly for [null] and
    [undefined]; for every finite number of magnitude below [10^21] it
    returns the number rounded to the nearest hundredth with exactly two
    decimal places, followed by ["%"]; and for every number it shows the
    digits [formatPrice] shows. *)
Theorem formatPercentage_two_decimals :
  (forall v : maybe number,
      formatPercentage v = "N/A"%string <-> v = null \/ v = undefined) /\
  (forall x : number,
      fixed_range x = true ->
      exists n, 0 <= n /\ nearest_hundredths x n /\
                formatPercentage (value x) = two_decimals (is_negative x) n +:+ "%" /\
                two_decimal_places
                  ("$" +:+ two_decimals (is_negative x) n) = true) /\
  (forall x : number,
      exists body, formatPercentage (value x) = body +:+ "%" /\
                   formatPrice (value x) = "$" +:+ body).
Proof.
  split; [| split].
  - intros [| | x]; cbn [formatPercentage].
    + split; auto.
    + split; auto.
    + split; [intros H; now apply percent_not_NA in H | intros [|]; discriminate].
  - intros x Hx. destruct (toFixed_two x Hx) as (n & Hn & Hnear & Hfix).
    exists n. unfold formatPercentage. rewrite Hfix.
    split; [exact Hn |]. split; [exact Hnear |]. split; [reflexivity |].
    now apply two_decimal_places_two_decimals.
  - intros x. exists (toFixed x 2). split; reflexivity.
Qed.

Lemma formatPercentage_two_decimals_witness :
  exists n, 0 <= n /\ nearest_hundredths 12.5%float n /\
            formatPercentage (value 12.5%float)
            = two_decimals (is_negative 12.5%float) n +:+ "%" /\
            two_decimal_places
              ("$" +:+ two_decimals (is_negative 12.5%float) n) = true.
Proof.
  apply (proj1 (proj2 formatPercentage_two_decimals)). vm_compute. reflexivity.
Defined.

End PercentFacts.

(** ** One cache entry, one request *)

Section CacheFacts.
Import Pages.

(** X23. React Query stores a result under the hook's query key. Two calls
    of the query hooks that share a key make the same request under the
    same [enabled] condition, so a cached result is never the answer to a
    different request; an omitted limit, page or number of days shares the
    entry of its default value. *)
Theorem same_key_same_request (h1 h2 : Hook) (key : list KeyPart) :
  queryKey h1 = Some key -> queryKey h2 = Some key -> run_hook h1 = run_hook h2.
Proof.
  intros H1 H2. rewrite <- H2 in H1. clear H2.
  destruct h1, h2; cbn [queryKey] in H1; try discriminate H1;
    try reflexivity; injection H1 as H1; cbn [run_hook];
    unfold usePriceHistory, useActiveAlerts, usePriceTrends, useRecentActivity,
      kint, kstr in *;
    try congruence.
  destruct bookId as [b1|], bookId0 as [b2|]; try discriminate; congruence.
Qed.

Lemma same_key_same_request_witness :
  run_hook (UsePriceHistory 7 None) = run_hook (UsePriceHistory 7 (Some 100)) /\
  run_hook (UseActiveAlerts None None) = run_hook (UseActiveAlerts (Some 1) (Some 50)).
Proof.
  split.
  - exact (same_key_same_request (UsePriceHistory 7 None)
             (UsePriceHistory 7 (Some 100)) _ eq_refl eq_refl).
  - exact (same_key_same_request (UseActiveAlerts None None)
             (UseActiveAlerts (Some 1) (Some 50)) _ eq_refl eq_refl).
Defined.

End CacheFacts.
